(** * Beamer Presenter: region model, page cache, sync protocol, navigation
      and timer, embedded from the JavaScript sources.

    Conventions of the embedding.
    - [getRegions] is written once over the operations of a number type
      and read at two of them: binary64 ([float], the numbers JavaScript
      computes with) and the exact rationals [Q].  The other geometry
      (canvas sizes, scale, pointer coordinates) is over [Q], where
      IEEE-754 rounding is not part of the model.  Page numbers and
      millisecond timestamps are integers [Z].
    - A JavaScript call either returns or throws: [completion].
    - Functions that read or write [AppState] take the state and give the
      new state back.  An [async] function is run to completion in one
      step: other handlers are not interleaved at its [await] points.
    - What a handler posts to the audience window is the list of messages
      handed to [postMessage], in order. *)

From Stdlib Require Import ZArith QArith Qround List String Bool Lia Lqa.
From Stdlib.Strings Require Import Ascii Byte.
From Stdlib Require Import DecimalString.
From Stdlib Require Import Floats.
Import ListNotations.

Local Open Scope string_scope.
Local Open Scope Z_scope.
Local Open Scope list_scope.

(** ** JavaScript completions *)

Module JS.

Inductive completion (A : Type) : Type :=
| Return (a : A)
| Throw (msg : string).

Arguments Return {A} a.
Arguments Throw {A} msg.

Definition threw {A} (c : completion A) : bool :=
  match c with Return _ => false | Throw _ => true end.

(** [a || b] on an optional value: the first operand when it is there. *)
Definition orElse {A} (o : option A) (d : A) : A :=
  match o with Some a => a | None => d end.

End JS.
Import JS.

(** ** The PDF engine (PDF.js), as far as the presenter calls it *)

Module PdfJs.

Definition ArrayBuffer : Type := list Byte.byte.

(** [buffer.slice(0)]: a fresh buffer holding the same bytes. *)
Definition slice0 (buffer : ArrayBuffer) : ArrayBuffer := buffer.

(** A page: its size at scale 1 and whether [page.render(...).promise]
    rejects. *)
Record PageProxy : Type := mkPage {
  pageWidth : Q;
  pageHeight : Q;
  renderError : option string
}.

(** [page.getViewport({scale})] *)
Definition getViewport (page : PageProxy) (scale : Q) : Q * Q :=
  ((pageWidth page * scale)%Q, (pageHeight page * scale)%Q).

Record PDFDocumentProxy : Type := mkDoc {
  numPages : Z;
  getPage : Z -> completion PageProxy
}.

(** [pdfjsLib]: [getDocument({data}).promise] resolves to a document or
    rejects. *)
Record Library : Type := mkLibrary {
  getDocument : ArrayBuffer -> completion PDFDocumentProxy
}.

End PdfJs.

(** ** The DOM objects the presenter holds *)

Module Dom.

(** A canvas made by [document.createElement('canvas')]: [canvasId] is the
    object's identity, its rank among the canvases created so far. *)
Record Canvas : Type := mkCanvas {
  canvasId : nat;
  width : Z;
  height : Z
}.

(** The window handle returned by [window.open]. *)
Record Window : Type := mkWindow { closed : bool }.

End Dom.

(** ** A JavaScript [Map]: entries in insertion order *)

Module JSMap.

Section WithKey.

Context {K V : Type}.
Variable eqb : K -> K -> bool.

Definition t : Type := list (K * V).

Definition size (m : t) : nat := List.length m.

Fixpoint get (k : K) (m : t) : option V :=
  match m with
  | [] => None
  | (k', v) :: m' => if eqb k' k then Some v else get k m'
  end.

Definition has (k : K) (m : t) : bool :=
  match get k m with Some _ => true | None => false end.

(** [set]: a key already there keeps its place and takes the new value,
    a new key goes to the end. *)
Fixpoint set (k : K) (v : V) (m : t) : t :=
  match m with
  | [] => [(k, v)]
  | (k', v') :: m' =>
      if eqb k' k then (k', v) :: m' else (k', v') :: set k v m'
  end.

Fixpoint delete (k : K) (m : t) : t :=
  match m with
  | [] => []
  | (k', v') :: m' => if eqb k' k then m' else (k', v') :: delete k m'
  end.

(** [m.keys().next().value]: the first key in insertion order,
    [undefined] on an empty map. *)
Definition firstKey (m : t) : option K :=
  match m with
  | [] => None
  | (k, _) :: _ => Some k
  end.

Definition keys (m : t) : list K := List.map fst m.

Definition clear (m : t) : t := [].

End WithKey.

End JSMap.

(** ** config.js *)

Module Config.

(** [CONFIG.defaults] *)
Definition default_location : string := "right".
Definition default_split : Q := (1 # 2)%Q.
Definition default_scale : Q := 2%Q.
Definition default_showNextPreview : bool := true.

(** [CONFIG.messageTypes] *)
Definition HELLO : string := "HELLO".
Definition STATE : string := "STATE".
Definition NAVIGATE : string := "NAVIGATE".
Definition MODE : string := "MODE".
Definition PDF_DATA : string := "PDF_DATA".
Definition ERROR : string := "ERROR".
Definition POINTER : string := "POINTER".

(** [CONFIG.displayModes] *)
Definition NORMAL : string := "normal".
Definition BLACK : string := "black".
Definition WHITE : string := "white".

(** The operations on JavaScript numbers that the region code and its
    properties use: the literals [0] and [1], [+], [-], [*], [<=] and
    [<]. *)
Class Number (N : Type) : Type := {
  num_zero : N;
  num_one : N;
  num_add : N -> N -> N;
  num_sub : N -> N -> N;
  num_mul : N -> N -> N;
  num_leb : N -> N -> bool;
  num_ltb : N -> N -> bool
}.

Declare Scope num_scope.
Delimit Scope num_scope with num.
Notation "0" := num_zero : num_scope.
Notation "1" := num_one : num_scope.
Infix "+" := num_add : num_scope.
Infix "-" := num_sub : num_scope.
Infix "*" := num_mul : num_scope.
Infix "<=?" := num_leb : num_scope.
Infix "<?" := num_ltb : num_scope.

Definition Qltb (a b : Q) : bool := negb (Qle_bool b a).

(** The numbers of the machine: IEEE-754 binary64, every operation
    rounded to nearest. *)
#[export] Instance binary64 : Number float := {|
  num_zero := 0%float;
  num_one := 1%float;
  num_add := PrimFloat.add;
  num_sub := PrimFloat.sub;
  num_mul := PrimFloat.mul;
  num_leb := PrimFloat.leb;
  num_ltb := PrimFloat.ltb
|}.

(** The numbers of exact arithmetic: no operation rounds. *)
#[export] Instance rational : Number Q := {|
  num_zero := 0%Q;
  num_one := 1%Q;
  num_add := Qplus;
  num_sub := Qminus;
  num_mul := Qmult;
  num_leb := Qle_bool;
  num_ltb := Qltb
|}.

(** A region [{x, y, w, h}] and the pair [{audience, notes}]. *)
Record RectOf (N : Type) : Type := mkRect { x : N; y : N; w : N; h : N }.

Arguments mkRect {N} x y w h.
Arguments x {N} r.
Arguments y {N} r.
Arguments w {N} r.
Arguments h {N} r.

Record RegionsOf (N : Type) : Type :=
  mkRegions { audience : RectOf N; notes : RectOf N }.

Arguments mkRegions {N} audience notes.
Arguments audience {N} r.
Arguments notes {N} r.

(** Regions over exact rationals, as the renderer's canvas sizes use
    them. *)
Abbreviation Rect := (RectOf Q).
Abbreviation Regions := (RegionsOf Q).

Section WithNumber.

Context {N : Type} `{Number N}.

Local Open Scope num_scope.

Definition zeroRect : RectOf N := mkRect 0 0 0 0.

(** [getRegions(width, height, location, split)]: the [switch] compares
    [location] with the four literals by strict equality and has no
    [default] arm, so any other string leaves the initial object. *)
Definition getRegions (width height : N) (location : string) (split : N)
  : RegionsOf N :=
  let regions := mkRegions zeroRect zeroRect in
  if String.eqb location "right" then
    mkRegions (mkRect 0 0 (width * split) height)
              (mkRect (width * split) 0 (width * (1 - split)) height)
  else if String.eqb location "left" then
    mkRegions (mkRect (width * split) 0 (width * (1 - split)) height)
              (mkRect 0 0 (width * split) height)
  else if String.eqb location "top" then
    mkRegions (mkRect 0 (height * split) width (height * (1 - split)))
              (mkRect 0 0 width (height * split))
  else if String.eqb location "bottom" then
    mkRegions (mkRect 0 0 width (height * split))
              (mkRect 0 (height * split) width (height * (1 - split)))
  else regions.

(** The completion of a call: the body has no [throw] and every path
    reaches [return regions]. *)
Definition getRegions_call (width height : N) (location : string)
    (split : N) : completion (RegionsOf N) :=
  Return (getRegions width height location split).

(** Pixels of a region: the half-open box [x, x+w) x [y, y+h). *)
Definition contains (r : RectOf N) (px py : N) : bool :=
  (x r <=? px) && (px <? x r + w r)
  && (y r <=? py) && (py <? y r + h r).

Definition area (r : RectOf N) : N := w r * h r.

End WithNumber.

(** The call with its parameter defaults [location = 'right'] and
    [split = 0.5], used when an argument is left out. *)
Definition getRegions_args (width height : Q) (location : option string)
    (split : option Q) : Regions :=
  getRegions width height (orElse location default_location)
             (orElse split default_split).

(** The four layouts the switch knows. *)
Definition known_location (location : string) : bool :=
  String.eqb location "right" || String.eqb location "left"
  || String.eqb location "top" || String.eqb location "bottom".

(** The key of the page cache, the template string
    [`${pageNum}-${scale}`]: two keys are the same string exactly when the
    page numbers and the scales are the same numbers. *)
Definition CacheKey : Type := (Z * Q)%type.

Definition cacheKey_eqb (a b : CacheKey) : bool :=
  Z.eqb (fst a) (fst b) && Qeq_bool (snd a) (snd b).

Inductive TimerState : Type := stopped | running | paused.

(** [AppState] *)
Record AppState : Type := mkAppState {
  pdfDoc : option PdfJs.PDFDocumentProxy;
  pdfData : option PdfJs.ArrayBuffer;
  pdfUrl : option string;
  totalPages : Z;
  currentPage : Z;
  location : string;
  split : Q;
  scale : Q;
  showNextPreview : bool;
  displayMode : string;
  audienceWindow : option Dom.Window;
  isAudienceConnected : bool;
  timerState : TimerState;
  timerStartTime : option Z;
  timerElapsed : Z;
  pageCache : @JSMap.t CacheKey Dom.Canvas
}.

(** The object literal [AppState] starts as. *)
Definition initialAppState : AppState :=
  {| pdfDoc := None; pdfData := None; pdfUrl := None;
     totalPages := 0; currentPage := 1;
     location := default_location; split := default_split;
     scale := default_scale; showNextPreview := default_showNextPreview;
     displayMode := NORMAL;
     audienceWindow := None; isAudienceConnected := false;
     timerState := stopped; timerStartTime := None; timerElapsed := 0;
     pageCache := [] |}.

(** Assignments to single fields of [AppState]. *)
Definition set_pdfDoc (v : option PdfJs.PDFDocumentProxy) (s : AppState) :=
  mkAppState v (pdfData s) (pdfUrl s) (totalPages s) (currentPage s)
    (location s) (split s) (scale s) (showNextPreview s) (displayMode s)
    (audienceWindow s) (isAudienceConnected s) (timerState s)
    (timerStartTime s) (timerElapsed s) (pageCache s).

Definition set_pdfData (v : option PdfJs.ArrayBuffer) (s : AppState) :=
  mkAppState (pdfDoc s) v (pdfUrl s) (totalPages s) (currentPage s)
    (location s) (split s) (scale s) (showNextPreview s) (displayMode s)
    (audienceWindow s) (isAudienceConnected s) (timerState s)
    (timerStartTime s) (timerElapsed s) (pageCache s).

Definition set_pdfUrl (v : option string) (s : AppState) :=
  mkAppState (pdfDoc s) (pdfData s) v (totalPages s) (currentPage s)
    (location s) (split s) (scale s) (showNextPreview s) (displayMode s)
    (audienceWindow s) (isAudienceConnected s) (timerState s)
    (timerStartTime s) (timerElapsed s) (pageCache s).

Definition set_totalPages (v : Z) (s : AppState) :=
  mkAppState (pdfDoc s) (pdfData s) (pdfUrl s) v (currentPage s)
    (location s) (split s) (scale s) (showNextPreview s) (displayMode s)
    (audienceWindow s) (isAudienceConnected s) (timerState s)
    (timerStartTime s) (timerElapsed s) (pageCache s).

Definition set_currentPage (v : Z) (s : AppState) :=
  mkAppState (pdfDoc s) (pdfData s) (pdfUrl s) (totalPages s) v
    (location s) (split s) (scale s) (showNextPreview s) (displayMode s)
    (audienceWindow s) (isAudienceConnected s) (timerState s)
    (timerStartTime s) (timerElapsed s) (pageCache s).

Definition set_settings (loc : string) (sp sc : Q) (next : bool)
    (s : AppState) :=
  mkAppState (pdfDoc s) (pdfData s) (pdfUrl s) (totalPages s) (currentPage s)
    loc sp sc next (displayMode s)
    (audienceWindow s) (isAudienceConnected s) (timerState s)
    (timerStartTime s) (timerElapsed s) (pageCache s).

Definition set_audienceWindow (v : option Dom.Window) (s : AppState) :=
  mkAppState (pdfDoc s) (pdfData s) (pdfUrl s) (totalPages s) (currentPage s)
    (location s) (split s) (scale s) (showNextPreview s) (displayMode s)
    v (isAudienceConnected s) (timerState s)
    (timerStartTime s) (timerElapsed s) (pageCache s).

Definition set_isAudienceConnected (v : bool) (s : AppState) :=
  mkAppState (pdfDoc s) (pdfData s) (pdfUrl s) (totalPages s) (currentPage s)
    (location s) (split s) (scale s) (showNextPreview s) (displayMode s)
    (audienceWindow s) v (timerState s)
    (timerStartTime s) (timerElapsed s) (pageCache s).

Definition set_timer (ts : TimerState) (start : option Z) (elapsed : Z)
    (s : AppState) :=
  mkAppState (pdfDoc s) (pdfData s) (pdfUrl s) (totalPages s) (currentPage s)
    (location s) (split s) (scale s) (showNextPreview s) (displayMode s)
    (audienceWindow s) (isAudienceConnected s) ts start elapsed
    (pageCache s).

Definition set_pageCache (v : @JSMap.t CacheKey Dom.Canvas) (s : AppState) :=
  mkAppState (pdfDoc s) (pdfData s) (pdfUrl s) (totalPages s) (currentPage s)
    (location s) (split s) (scale s) (showNextPreview s) (displayMode s)
    (audienceWindow s) (isAudienceConnected s) (timerState s)
    (timerStartTime s) (timerElapsed s) v.


(** [CONFIG.shortcuts] *)
Definition shortcuts_next : list string := ["Space"; "ArrowRight"; "PageDown"].
Definition shortcuts_prev : list string := ["ArrowLeft"; "PageUp"].
Definition shortcuts_first : list string := ["Home"].
Definition shortcuts_last : list string := ["End"].
Definition shortcuts_fullscreen : list string := ["KeyF"].

(** [list.includes(code)] *)
Definition includes (l : list string) (code : string) : bool :=
  existsb (String.eqb code) l.

End Config.
Import Config.

(** ** sync.js *)

Module Sync.

(** The payloads of the protocol messages. *)
Inductive Payload : Type :=
| EmptyPayload
| StatePayload (page totalPages : Z) (location : string) (split : Q)
               (mode : string)
| NavigatePayload (page : Z)
| ModePayload (mode : string)
| PdfDataPayload (data : PdfJs.ArrayBuffer) (location : string) (split : Q)
| PointerPayload (x y : option Q) (active : bool)
| ErrorPayload (diagnostic : string).

(** The envelope [{sessionId, type, payload}]. *)
Record Message : Type := mkMessage {
  sessionId : string;
  type : string;
  payload : Payload
}.

(** [event.data] of an incoming message event: any of the three fields, and
    the object itself, may be missing. *)
Record MessageData : Type := mkMessageData {
  data_sessionId : option string;
  data_type : option string;
  data_payload : option Payload
}.

Record MessageEvent : Type := mkMessageEvent { data : option MessageData }.

(** [!type] on a string or [undefined]. *)
Definition falsy_type (t : option string) : bool :=
  match t with
  | None => true
  | Some s => String.eqb s ""
  end.

(** The test that opens [sendToAudience]:
    [AppState.audienceWindow && !AppState.audienceWindow.closed]. *)
Definition audienceAvailable (st : AppState) : bool :=
  match audienceWindow st with
  | Some win => negb (Dom.closed win)
  | None => false
  end.

(** [isAudienceConnected()] *)
Definition isAudienceConnected_query (st : AppState) : bool :=
  audienceAvailable st && isAudienceConnected st.

Section WithSession.

(** [CONFIG.sessionId] *)
Variable session : string.

(** [sendToAudience(type, payload, transfer)]: nothing is posted without
    a live window; otherwise one [postMessage].  The payloads sent here
    are structured-cloneable, so the [catch] arm is not reached. *)
Definition sendToAudience (ty : string) (pl : Payload) (st : AppState)
  : list Message :=
  if negb (audienceAvailable st) then []
  else [mkMessage session ty pl].

Definition sendStateToAudience (st : AppState) : list Message :=
  sendToAudience STATE
    (StatePayload (currentPage st) (totalPages st) (location st)
                  (split st) (displayMode st)) st.

Definition sendNavigateToAudience (page : Z) (st : AppState)
  : list Message :=
  sendToAudience NAVIGATE (NavigatePayload page) st.

Definition sendModeToAudience (mode : string) (st : AppState)
  : list Message :=
  sendToAudience MODE (ModePayload mode) st.

(** [sendPdfDataToAudience()]: the clone is what is sent and
    transferred; [AppState.pdfData] is read only. *)
Definition sendPdfDataToAudience (st : AppState) : list Message :=
  match pdfData st with
  | None => []
  | Some buffer =>
      let dataClone := PdfJs.slice0 buffer in
      sendToAudience PDF_DATA
        (PdfDataPayload dataClone (location st) (split st)) st
  end.

(** Modelled from the spec: [sendPointerToAudience(x, y, active)], which
    main.js imports from sync.js and the sync.js at hand does not define.
    The spec lists [POINTER] as a presenter-to-audience message with
    payload [{x, y, active}], sent like the other updates. *)
Definition sendPointerToAudience (px py : option Q) (active : bool)
    (st : AppState) : list Message :=
  sendToAudience POINTER (PointerPayload px py active) st.

(** [handleAudienceMessage(event, onConnect)]: the new state, the
    messages posted, and whether [onConnect()] was called. *)
Definition handleAudienceMessage (event : MessageEvent) (onConnect : bool)
    (st : AppState) : AppState * list Message * bool :=
  let ty :=
    match data event with
    | Some d => data_type d
    | None => None
    end in
  if falsy_type ty then (st, [], false)
  else if String.eqb (orElse ty "") HELLO then
    let st1 := set_isAudienceConnected true st in
    let out1 := sendStateToAudience st1 in
    let out2 :=
      match pdfData st1 with
      | Some _ => sendPdfDataToAudience st1
      | None => []
      end in
    (st1, out1 ++ out2, onConnect)
  else (st, [], false).

(** The presenter's message listener run over a sequence of events. *)
Fixpoint handleAudienceMessages (events : list MessageEvent)
    (onConnect : bool) (st : AppState) : AppState * list Message :=
  match events with
  | [] => (st, [])
  | e :: rest =>
      let '(st1, out1, _) := handleAudienceMessage e onConnect st in
      let '(st2, out2) := handleAudienceMessages rest onConnect st1 in
      (st2, out1 ++ out2)
  end.

(** The messages of a resync, as the handshake is specified: the full
    snapshot, then the document bytes when a document is loaded. *)
Definition stateMessage (st : AppState) : Message :=
  mkMessage session STATE
    (StatePayload (currentPage st) (totalPages st) (location st)
                  (split st) (displayMode st)).

Definition pdfDataMessage (buffer : PdfJs.ArrayBuffer) (st : AppState)
  : Message :=
  mkMessage session PDF_DATA
    (PdfDataPayload buffer (location st) (split st)).

Definition fullResync (st : AppState) : list Message :=
  stateMessage st ::
  match pdfData st with
  | Some buffer => [pdfDataMessage buffer st]
  | None => []
  end.

(** [POINTER] with [{x: null, y: null, active: false}] *)
Definition pointerOff : Message :=
  mkMessage session POINTER (PointerPayload None None false).

Definition navigateMessage (page : Z) : Message :=
  mkMessage session NAVIGATE (NavigatePayload page).

(** A [HELLO] as the audience window sends it. *)
Definition helloEvent : MessageEvent :=
  mkMessageEvent
    (Some (mkMessageData (Some session) (Some HELLO) (Some EmptyPayload))).

End WithSession.



(** [openAudienceWindow()], given what [window.open] returns (nothing when
    the popup is blocked): the handle is stored either way, and no other
    field is written. *)
Definition openAudienceWindow (opened : option Dom.Window) (st : AppState)
  : AppState * option Dom.Window :=
  (set_audienceWindow opened st, opened).

(** What the receiving window finds in [event.data] for a posted
    message. *)
Definition delivered (m : Message) : MessageEvent :=
  mkMessageEvent
    (Some (mkMessageData (Some (sessionId m)) (Some (type m))
             (Some (payload m)))).

(** Property reads on a payload object; a missing property is
    [undefined]. *)
Definition payload_page (pl : Payload) : option Z :=
  match pl with
  | StatePayload page _ _ _ _ => Some page
  | NavigatePayload page => Some page
  | _ => None
  end.

Definition payload_mode (pl : Payload) : option string :=
  match pl with
  | StatePayload _ _ _ _ mode => Some mode
  | ModePayload mode => Some mode
  | _ => None
  end.

Definition payload_data (pl : Payload) : option PdfJs.ArrayBuffer :=
  match pl with
  | PdfDataPayload data _ _ => Some data
  | _ => None
  end.

Definition payload_location (pl : Payload) : option string :=
  match pl with
  | StatePayload _ _ location _ _ => Some location
  | PdfDataPayload _ location _ => Some location
  | _ => None
  end.

Definition payload_split (pl : Payload) : option Q :=
  match pl with
  | StatePayload _ _ _ split _ => Some split
  | PdfDataPayload _ _ split => Some split
  | _ => None
  end.

(** Which of the audience's callbacks are set. *)
Record Callbacks : Type := mkCallbacks {
  onState : bool;
  onNavigate : bool;
  onMode : bool;
  onPdfData : bool
}.

(** A callback call with its arguments. *)
Inductive CallbackCall : Type :=
| CallOnState (pl : option Payload)
| CallOnNavigate (page : option Z)
| CallOnMode (mode : option string)
| CallOnPdfData (data : option PdfJs.ArrayBuffer) (location : option string)
                (split : option Q).

(** Reading a property of a payload that is [undefined] throws. *)
Definition readPayload {A} (pl : option Payload) (k : Payload -> A)
  : completion A :=
  match pl with
  | Some p => Return (k p)
  | None => Throw "TypeError: Cannot read properties of undefined"
  end.

(** [sendHelloToPresenter(presenterWindow)], with the audience page's own
    [CONFIG.sessionId]. *)
Definition sendHelloToPresenter (session : string)
    (presenterWindow : option Dom.Window) : list Message :=
  match presenterWindow with
  | None => []
  | Some win =>
      if Dom.closed win then []
      else [mkMessage session HELLO EmptyPayload]
  end.

(** [handlePresenterMessage(event, callbacks)]: the audience page's
    [CONFIG.sessionId] afterwards, and the callback called, if any.  The
    session id of the message is kept only when the page has none. *)
Definition handlePresenterMessage (event : MessageEvent)
    (callbacks : Callbacks) (configSessionId : string)
  : string * completion (option CallbackCall) :=
  let d := data event in
  let sid := match d with Some d => data_sessionId d | None => None end in
  let ty := match d with Some d => data_type d | None => None end in
  let pl := match d with Some d => data_payload d | None => None end in
  let configSessionId' :=
    match sid with
    | Some s =>
        if String.eqb configSessionId "" && negb (String.eqb s "")
        then s else configSessionId
    | None => configSessionId
    end in
  (configSessionId',
   match ty with
   | None => Return None
   | Some t =>
       if String.eqb t STATE then
         if onState callbacks then Return (Some (CallOnState pl))
         else Return None
       else if String.eqb t NAVIGATE then
         if onNavigate callbacks then
           match readPayload pl payload_page with
           | Return page => Return (Some (CallOnNavigate page))
           | Throw e => Throw e
           end
         else Return None
       else if String.eqb t MODE then
         if onMode callbacks then
           match readPayload pl payload_mode with
           | Return mode => Return (Some (CallOnMode mode))
           | Throw e => Throw e
           end
         else Return None
       else if String.eqb t PDF_DATA then
         if onPdfData callbacks then
           match readPayload pl (fun p => p) with
           | Return p =>
               Return (Some (CallOnPdfData (payload_data p)
                               (payload_location p) (payload_split p)))
           | Throw e => Throw e
           end
         else Return None
       else Return None
   end).

(** The audience's listener over the messages posted to it, in order:
    one run of the handler per message, a throw ending that run only. *)
Fixpoint audienceReceives (callbacks : Callbacks)
    (configSessionId : string) (posted : list Message)
  : list (completion (option CallbackCall)) :=
  match posted with
  | [] => []
  | m :: rest =>
      let r := handlePresenterMessage (delivered m) callbacks
                 configSessionId in
      snd r :: audienceReceives callbacks (fst r) rest
  end.

(** An audience page with every callback set. *)
Definition allCallbacks : Callbacks := mkCallbacks true true true true.

(** The type of an incoming event, as the handlers destructure it, and
    whether its payload is missing. *)
Definition hasType (event : MessageEvent) (t : string) : bool :=
  match data event with
  | Some d => match data_type d with
              | Some t' => String.eqb t' t
              | None => false
              end
  | None => false
  end.

Definition lacksPayload (event : MessageEvent) : bool :=
  match data event with
  | Some d => match data_payload d with Some _ => false | None => true end
  | None => true
  end.

End Sync.

(** ** The presenter page: [AppState] and the module-level variables *)

Module Runtime.

Record World : Type := mkWorld {
  app : AppState;
  (** [pdfjsLib] of pdf-renderer.js, [null] until [initPdfJs] *)
  pdfjsLib : option PdfJs.Library;
  (** [window.devicePixelRatio] *)
  devicePixelRatio : Q;
  (** how many canvases [document.createElement] has made *)
  canvasesCreated : nat;
  (** [timerInterval] of timer.js: an interval is armed *)
  timerInterval : bool;
  (** the milliseconds last formatted into the timer element *)
  timerDisplay : Z;
  (** class [hidden] on the presenter's pointer overlay *)
  presenterPointerHidden : bool;
  (** [isPointerActive] and [lastPointerSendTime] of main.js *)
  isPointerActive : bool;
  lastPointerSendTime : Z
}.

Definition with_app (f : AppState -> AppState) (wd : World) : World :=
  mkWorld (f (app wd)) (pdfjsLib wd) (devicePixelRatio wd)
    (canvasesCreated wd) (timerInterval wd) (timerDisplay wd)
    (presenterPointerHidden wd) (isPointerActive wd)
    (lastPointerSendTime wd).

Definition set_canvasesCreated (n : nat) (wd : World) : World :=
  mkWorld (app wd) (pdfjsLib wd) (devicePixelRatio wd)
    n (timerInterval wd) (timerDisplay wd)
    (presenterPointerHidden wd) (isPointerActive wd)
    (lastPointerSendTime wd).

Definition set_timerUi (interval : bool) (display : Z) (wd : World) : World :=
  mkWorld (app wd) (pdfjsLib wd) (devicePixelRatio wd)
    (canvasesCreated wd) interval display
    (presenterPointerHidden wd) (isPointerActive wd)
    (lastPointerSendTime wd).

Definition set_presenterPointerHidden (b : bool) (wd : World) : World :=
  mkWorld (app wd) (pdfjsLib wd) (devicePixelRatio wd)
    (canvasesCreated wd) (timerInterval wd) (timerDisplay wd)
    b (isPointerActive wd) (lastPointerSendTime wd).

Definition set_isPointerActive (b : bool) (wd : World) : World :=
  mkWorld (app wd) (pdfjsLib wd) (devicePixelRatio wd)
    (canvasesCreated wd) (timerInterval wd) (timerDisplay wd)
    (presenterPointerHidden wd) b (lastPointerSendTime wd).

Definition set_lastPointerSendTime (t : Z) (wd : World) : World :=
  mkWorld (app wd) (pdfjsLib wd) (devicePixelRatio wd)
    (canvasesCreated wd) (timerInterval wd) (timerDisplay wd)
    (presenterPointerHidden wd) (isPointerActive wd) t.

(** A state with the page cache and the canvas counter blanked: what the
    render path leaves alone. *)
Definition frame (wd : World) : World :=
  set_canvasesCreated 0 (with_app (set_pageCache []) wd).

(** A computation that may throw and may change the page's state; what was
    written before a throw stays written. *)
Definition M (A : Type) : Type := World -> completion A * World.

Definition ret {A} (a : A) : M A := fun wd => (Return a, wd).

Definition throw {A} (msg : string) : M A := fun wd => (Throw msg, wd).

Definition bind {A B} (c : M A) (k : A -> M B) : M B :=
  fun wd =>
    match c wd with
    | (Return a, wd1) => k a wd1
    | (Throw msg, wd1) => (Throw msg, wd1)
    end.

(** [try { c } catch (error) { }] where the handler only reports. *)
Definition tryCatch {A} (c : M A) : World -> World :=
  fun wd => snd (c wd).

End Runtime.
Import Runtime.

Declare Scope js_scope.
Delimit Scope js_scope with js.
Notation "x <- c ;; k" := (bind c (fun x => k))
  (at level 61, c at next level, right associativity) : js_scope.
Notation "c ;;; k" := (bind c (fun _ => k))
  (at level 61, right associativity) : js_scope.

(** ** pdf-renderer.js *)

Module PdfRenderer.

(** What [fetch(url)] resolves to. *)
Record Response : Type := mkResponse {
  ok : bool;
  status : Z;
  statusText : string;
  arrayBuffer : completion PdfJs.ArrayBuffer
}.

(** The message of the error thrown for a response that is not ok:
    [`Failed to fetch PDF: ${response.status} ${response.statusText}`] *)
Definition fetchFailure (response : Response) : string :=
  ("Failed to fetch PDF: "
   ++ NilZero.string_of_int (Z.to_int (status response))
   ++ " " ++ statusText response)%string.

(** [canvas.width = v]: the attribute keeps the integer part (for the
    non-negative sizes a viewport has). *)
Definition canvasDimension (v : Q) : Z := Qfloor v.

(** [loadPdfFromBuffer(arrayBuffer)] *)
Definition loadPdfFromBuffer (arrayBuffer : PdfJs.ArrayBuffer)
  : M PdfJs.PDFDocumentProxy :=
  fun wd =>
    match pdfjsLib wd with
    | None => (Throw "PDF.js not initialized", wd)
    | Some lib =>
        let wd1 :=
          with_app (set_pdfData (Some (PdfJs.slice0 arrayBuffer))) wd in
        match PdfJs.getDocument lib arrayBuffer with
        | Throw e => (Throw e, wd1)
        | Return pdfDoc =>
            let wd2 := with_app (set_pdfDoc (Some pdfDoc)) wd1 in
            let wd3 :=
              with_app (set_totalPages (PdfJs.numPages pdfDoc)) wd2 in
            let wd4 := with_app (set_currentPage 1) wd3 in
            let wd5 :=
              with_app (fun s => set_pageCache (JSMap.clear (pageCache s)) s)
                       wd4 in
            (Return pdfDoc, wd5)
        end
    end.

Section WithNetwork.

(** [fetch]: rejects, or resolves to a response. *)
Variable fetch : string -> completion Response.

(** [loadPdfFromUrl(url)] *)
Definition loadPdfFromUrl (url : string) : M PdfJs.PDFDocumentProxy :=
  fun wd =>
    match pdfjsLib wd with
    | None => (Throw "PDF.js not initialized", wd)
    | Some lib =>
        match fetch url with
        | Throw e => (Throw e, wd)
        | Return response =>
            if negb (ok response) then (Throw (fetchFailure response), wd)
            else
              match arrayBuffer response with
              | Throw e => (Throw e, wd)
              | Return buffer =>
                  let wd1 :=
                    with_app (set_pdfData (Some (PdfJs.slice0 buffer)))
                             wd in
                  let wd1' := with_app (set_pdfUrl (Some url)) wd1 in
                  match PdfJs.getDocument lib buffer with
                  | Throw e => (Throw e, wd1')
                  | Return pdfDoc =>
                      let wd2 := with_app (set_pdfDoc (Some pdfDoc)) wd1' in
                      let wd3 :=
                        with_app (set_totalPages (PdfJs.numPages pdfDoc))
                                 wd2 in
                      let wd4 := with_app (set_currentPage 1) wd3 in
                      let wd5 :=
                        with_app
                          (fun s =>
                             set_pageCache (JSMap.clear (pageCache s)) s)
                          wd4 in
                      (Return pdfDoc, wd5)
                  end
              end
        end
    end.

End WithNetwork.

(** The tail of [renderFullPage]: make room, then store.
    [if (pageCache.size > 5) delete the first key; pageCache.set(key, canvas)] *)
Definition cacheStore (cacheKey : CacheKey) (canvas : Dom.Canvas)
    (cache : @JSMap.t CacheKey Dom.Canvas) : @JSMap.t CacheKey Dom.Canvas :=
  let cache1 :=
    if (5 <? JSMap.size cache)%nat then
      match JSMap.firstKey cache with
      | Some firstKey => JSMap.delete cacheKey_eqb firstKey cache
      | None => cache
      end
    else cache in
  JSMap.set cacheKey_eqb cacheKey canvas cache1.

(** [renderFullPage(pageNum, scale)].  A [Map] of canvases holds a key
    exactly when [get] finds a canvas for it, so the test [has] followed
    by [get] is one lookup. *)
Definition renderFullPage (pageNum : Z) (scale : Q) : M Dom.Canvas :=
  fun wd =>
    match pdfDoc (app wd) with
    | None => (Throw "No PDF loaded", wd)
    | Some doc =>
        let cacheKey := (pageNum, scale) in
        match JSMap.get cacheKey_eqb cacheKey (pageCache (app wd)) with
        | Some cached => (Return cached, wd)
        | None =>
            match PdfJs.getPage doc pageNum with
            | Throw e => (Throw e, wd)
            | Return page =>
                let viewport :=
                  PdfJs.getViewport page (scale * devicePixelRatio wd)%Q in
                let canvas :=
                  Dom.mkCanvas (canvasesCreated wd)
                    (canvasDimension (fst viewport))
                    (canvasDimension (snd viewport)) in
                let wd1 := set_canvasesCreated (S (canvasesCreated wd)) wd in
                match PdfJs.renderError page with
                | Some e => (Throw e, wd1)
                | None =>
                    (Return canvas,
                     with_app
                       (fun s =>
                          set_pageCache
                            (cacheStore cacheKey canvas (pageCache s)) s)
                       wd1)
                end
            end
        end
    end.

(** A run of [renderFullPage] calls, each awaited before the next. *)
Fixpoint renderFullPages (requests : list (Z * Q)) (wd : World) : World :=
  match requests with
  | [] => wd
  | (pageNum, scale) :: rest =>
      renderFullPages rest (snd (renderFullPage pageNum scale wd))
  end.

(** The cached canvases were created one after the other in the order
    the [Map] lists them, all of them before now. *)
Fixpoint createdInOrder (bound : nat) (ids : list nat) : Prop :=
  match ids with
  | [] => True
  | i :: rest =>
      (i < bound)%nat /\ Forall (fun j => (i < j)%nat) rest
      /\ createdInOrder bound rest
  end.

(** The identities of the cached canvases, in the order of the [Map]. *)
Definition cachedIds (cache : @JSMap.t CacheKey Dom.Canvas) : list nat :=
  List.map (fun e => Dom.canvasId (snd e)) cache.

(** The cache lists its canvases in the order they were created. *)
Definition chronological (wd : World) : Prop :=
  createdInOrder (canvasesCreated wd) (cachedIds (pageCache (app wd))).

(** Pages are cached only while a document is loaded. *)
Definition cacheNeedsDoc (wd : World) : Prop :=
  pdfDoc (app wd) = None -> pageCache (app wd) = [].

(** The four ways [renderFullPage] can end. *)
Inductive Outcome (pageNum : Z) (scale : Q) (wd : World)
  : completion Dom.Canvas * World -> Prop :=
| Hit cached :
    JSMap.get cacheKey_eqb (pageNum, scale) (pageCache (app wd))
    = Some cached ->
    Outcome pageNum scale wd (Return cached, wd)
| Refused e :
    Outcome pageNum scale wd (Throw e, wd)
| RenderFailed e :
    Outcome pageNum scale wd
      (Throw e, set_canvasesCreated (S (canvasesCreated wd)) wd)
| Stored canvas :
    pdfDoc (app wd) <> None ->
    JSMap.get cacheKey_eqb (pageNum, scale) (pageCache (app wd)) = None ->
    Dom.canvasId canvas = canvasesCreated wd ->
    Outcome pageNum scale wd
      (Return canvas,
       with_app
         (fun s =>
            set_pageCache
              (cacheStore (pageNum, scale) canvas (pageCache s)) s)
         (set_canvasesCreated (S (canvasesCreated wd)) wd)).

(** The guard shared by [renderAudienceSlide] and [renderNotesArea]. *)
Definition skipRender (pageNum : Z) (st : AppState) : bool :=
  match pdfDoc st with
  | None => true
  | Some _ => (pageNum <? 1)%Z || (pageNum >? totalPages st)%Z
  end.

(** [renderAudienceSlide(canvas, pageNum)]: gives the region it draws from
    the full page, or nothing when the guard skips the render.  Drawing
    into the target canvas leaves [AppState] alone. *)
Definition renderAudienceSlide (pageNum : Z) : M (option Rect) :=
  fun wd =>
    if skipRender pageNum (app wd) then (Return None, wd)
    else
      bind (renderFullPage pageNum (scale (app wd)))
        (fun fullPage wd1 =>
           let regions :=
             getRegions (inject_Z (Dom.width fullPage))
                        (inject_Z (Dom.height fullPage))
                        (location (app wd1)) (split (app wd1)) in
           (Return (Some (audience regions)), wd1))
        wd.

(** [renderNotesArea(canvas, pageNum)]: the notes are rendered at one and
    a half times the scale. *)
Definition renderNotesArea (pageNum : Z) : M (option Rect) :=
  fun wd =>
    if skipRender pageNum (app wd) then (Return None, wd)
    else
      bind (renderFullPage pageNum (scale (app wd) * (3 # 2))%Q)
        (fun fullPage wd1 =>
           let regions :=
             getRegions (inject_Z (Dom.width fullPage))
                        (inject_Z (Dom.height fullPage))
                        (location (app wd1)) (split (app wd1)) in
           (Return (Some (notes regions)), wd1))
        wd.

(** [initPdfJs()], given [window.pdfjsLib] and whether the page is served
    from [file:]: what it returns, the state, and the worker source it
    sets.  The only throw inside the [try] is the one for a missing
    library, and then the [catch] finds no library to fall back on. *)
Definition initPdfJs (windowPdfjsLib : option PdfJs.Library)
    (isFileProtocol : bool) (wd : World)
  : bool * World * option string :=
  let wd1 :=
    mkWorld (app wd) windowPdfjsLib (devicePixelRatio wd)
      (canvasesCreated wd) (timerInterval wd) (timerDisplay wd)
      (presenterPointerHidden wd) (isPointerActive wd)
      (lastPointerSendTime wd) in
  match windowPdfjsLib with
  | None => (false, wd1, None)
  | Some _ =>
      (true, wd1,
       Some (if isFileProtocol then ""
             else "./vendor/pdfjs/pdf.worker.min.mjs"))
  end.

(** [a || d] on a number: 0 and a missing value give way to [d]. *)
Definition numberOr (v : option Q) (d : Q) : Q :=
  match v with
  | Some q => if Qeq_bool q 0 then d else q
  | None => d
  end.

(** The size a target canvas is given: the CSS size and the pixel size. *)
Record CanvasSize : Type := mkCanvasSize {
  styleWidth : Q;
  styleHeight : Q;
  pixelWidth : Z;
  pixelHeight : Z
}.

(** The sizing in [renderAudienceSlide]: fit to the parent's width.
    [parentWidth] is [canvas.parentElement?.clientWidth]. *)
Definition audienceCanvasSize (region : Rect) (parentWidth : option Q)
    (devicePixelRatio : Q) : CanvasSize :=
  let aspectRatio := (w region / h region)%Q in
  let dpr := numberOr (Some devicePixelRatio) 1 in
  let displayWidth := numberOr parentWidth 400 in
  let displayHeight := (displayWidth / aspectRatio)%Q in
  mkCanvasSize displayWidth displayHeight
    (canvasDimension (displayWidth * dpr)%Q)
    (canvasDimension (displayHeight * dpr)%Q).

(** The sizing in [renderNotesArea]: fit within the container. *)
Definition notesCanvasSize (region : Rect) (containerWidth : option Q)
    (containerHeight : option Q) (devicePixelRatio : Q) : CanvasSize :=
  let aspectRatio := (w region / h region)%Q in
  let dpr := numberOr (Some devicePixelRatio) 1 in
  let maxWidth := numberOr containerWidth 800 in
  let maxHeight := numberOr containerHeight 600 in
  let displayWidth := maxWidth in
  let displayHeight := (displayWidth / aspectRatio)%Q in
  let '(displayWidth, displayHeight) :=
    if Qltb maxHeight displayHeight
    then ((maxHeight * aspectRatio)%Q, maxHeight)
    else (displayWidth, displayHeight) in
  mkCanvasSize displayWidth displayHeight
    (canvasDimension (displayWidth * dpr * (3 # 2))%Q)
    (canvasDimension (displayHeight * dpr * (3 # 2))%Q).

(** No two entries of the cache have the same key. *)
Fixpoint distinctKeys (cache : @JSMap.t CacheKey Dom.Canvas) : Prop :=
  match cache with
  | [] => True
  | (k, _) :: rest =>
      Forall (fun e => cacheKey_eqb k (fst e) = false) rest
      /\ distinctKeys rest
  end.

(** The engine gives the page and rasterizes it. *)
Definition engineRenders (doc : PdfJs.PDFDocumentProxy) (pageNum : Z)
  : Prop :=
  exists page,
    PdfJs.getPage doc pageNum = Return page
    /\ PdfJs.renderError page = None.

(** Every cached canvas was created when [n0] canvases existed, or
    later. *)
Definition cachedSince (n0 : nat) (wd : World) : Prop :=
  (n0 <= canvasesCreated wd)%nat
  /\ Forall (fun i => (n0 <= i)%nat) (cachedIds (pageCache (app wd))).

End PdfRenderer.

(** ** timer.js *)

Module Timer.

(** [getElapsedTime()], with [now] the value [Date.now()] gives.  A [null]
    start time counts as 0 in the subtraction. *)
Definition getElapsedTime (now : Z) (st : AppState) : Z :=
  match timerState st with
  | stopped => 0
  | paused => timerElapsed st
  | running => timerElapsed st + (now - orElse (timerStartTime st) 0)
  end.

(** [updateTimerDisplay(element)], also the body of the one-second
    interval: it reads the state and writes the element. *)
Definition updateTimerDisplay (now : Z) (wd : World) : World :=
  set_timerUi (timerInterval wd) (getElapsedTime now (app wd)) wd.

(** [startTimer(element)]; the handler reads the clock once. *)
Definition startTimer (now : Z) (wd : World) : World :=
  match timerState (app wd) with
  | running => wd
  | ts =>
      let elapsed :=
        match ts with
        | stopped => 0
        | _ => timerElapsed (app wd)
        end in
      let wd1 := with_app (set_timer running (Some now) elapsed) wd in
      let wd2 := set_timerUi true (timerDisplay wd1) wd1 in
      updateTimerDisplay now wd2
  end.

(** [pauseTimer(element)] *)
Definition pauseTimer (now : Z) (wd : World) : World :=
  match timerState (app wd) with
  | running =>
      let captured := getElapsedTime now (app wd) in
      let wd1 :=
        with_app (set_timer paused (timerStartTime (app wd)) captured) wd in
      let wd2 := set_timerUi false (timerDisplay wd1) wd1 in
      updateTimerDisplay now wd2
  | _ => wd
  end.

(** [resetTimer(element)] *)
Definition resetTimer (wd : World) : World :=
  let wd1 := with_app (set_timer stopped None 0) wd in
  set_timerUi false 0 wd1.

(** [toggleTimer(element)] *)
Definition toggleTimer (now : Z) (wd : World) : World :=
  match timerState (app wd) with
  | running => pauseTimer now wd
  | _ => startTimer now wd
  end.

(** [getTimerState()] *)
Definition getTimerState (wd : World) : TimerState := timerState (app wd).

(** The calls the timer buttons and the interval can make. *)
Inductive Action : Type :=
| Start (now : Z)
| Pause (now : Z)
| Reset
| Toggle (now : Z)
| Tick (now : Z).

Definition perform (a : Action) (wd : World) : World :=
  match a with
  | Start now => startTimer now wd
  | Pause now => pauseTimer now wd
  | Reset => resetTimer wd
  | Toggle now => toggleTimer now wd
  | Tick now => updateTimerDisplay now wd
  end.

Definition performAll (l : list Action) (wd : World) : World :=
  fold_left (fun acc a => perform a acc) l wd.

(** While the timer runs, its start time is set. *)
Definition timerWellFormed (st : AppState) : Prop :=
  timerState st = running -> timerStartTime st <> None.

(** [array.join(sep)] *)
Fixpoint join (sep : string) (parts : list string) : string :=
  match parts with
  | [] => ""
  | [p] => p
  | p :: rest => (p ++ sep ++ join sep rest)%string
  end.

(** [v.toString()] on an integer below the exponent notation. *)
Definition toString (v : Z) : string := NilZero.string_of_int (Z.to_int v).

(** [s.padStart(2, '0')] *)
Definition padStart2 (s : string) : string :=
  match String.length s with
  | O => "00"
  | S O => ("0" ++ s)%string
  | _ => s
  end.

(** [formatTime(ms)]: [Math.floor] of a quotient is the floor division,
    [%] the remainder with the sign of the dividend. *)
Definition formatTime (ms : Z) : string :=
  let totalSeconds := ms / 1000 in
  let hours := totalSeconds / 3600 in
  let minutes := Z.rem totalSeconds 3600 / 60 in
  let seconds := Z.rem totalSeconds 60 in
  join ":" (List.map (fun v => padStart2 (toString v))
              [hours; minutes; seconds]).

(** [getCurrentTime()], given the hours, minutes and seconds of
    [new Date()]. *)
Definition getCurrentTime (hours minutes seconds : Z) : string :=
  join ":" (List.map (fun v => padStart2 (toString v))
              [hours; minutes; seconds]).

(** The text in the timer element. *)
Definition timerText (wd : World) : string := formatTime (timerDisplay wd).

(** A reader for the texts [formatTime] writes, [HH:MM:SS] back into
    whole seconds; it serves to say that the text tells the seconds. *)
Definition digitValue (c : ascii) : option Z :=
  let n := nat_of_ascii c in
  if ((48 <=? n) && (n <=? 57))%nat then Some (Z.of_nat (n - 48)) else None.

Definition twoDigits (s : string) : option Z :=
  match s with
  | String a (String b EmptyString) =>
      match digitValue a, digitValue b with
      | Some x, Some y => Some (10 * x + y)
      | _, _ => None
      end
  | _ => None
  end.

Definition parseClock (text : string) : option Z :=
  if negb (String.eqb (substring 2 1 text) ":" 
           && String.eqb (substring 5 1 text) ":"
           && (String.length text =? 8)%nat) then None
  else
    match twoDigits (substring 0 2 text), twoDigits (substring 3 2 text),
          twoDigits (substring 6 2 text) with
    | Some hh, Some mm, Some ss => Some (hh * 3600 + mm * 60 + ss)
    | _, _, _ => None
    end.

(** The two-character text of [n] reads back as [n]. *)
Definition twoDigitsOk (n : nat) : bool :=
  match twoDigits (padStart2 (toString (Z.of_nat n))) with
  | Some v =>
      (v =? Z.of_nat n)
      && (String.length (padStart2 (toString (Z.of_nat n))) =? 2)%nat
  | None => false
  end.

(** Start and pause at the two ends of each interval, in turn. *)
Definition startPauseCycles (intervals : list (Z * Z)) : list Action :=
  List.flat_map (fun i => [Start (fst i); Pause (snd i)]) intervals.

Definition toggleCycles (intervals : list (Z * Z)) : list Action :=
  List.flat_map (fun i => [Toggle (fst i); Toggle (snd i)]) intervals.

(** The time the timer ran over the intervals. *)
Definition runningTime (intervals : list (Z * Z)) : Z :=
  fold_right (fun i acc => (snd i - fst i) + acc) 0 intervals.

(** The interval is armed exactly while the timer runs. *)
Definition intervalInSync (wd : World) : Prop :=
  timerInterval wd = match timerState (app wd) with
                     | running => true
                     | _ => false
                     end.

End Timer.

(** ** main.js *)

Module App.

(** [s.toLowerCase()] on ASCII letters. *)
Definition lowerAscii (c : ascii) : ascii :=
  let n := nat_of_ascii c in
  if ((65 <=? n) && (n <=? 90))%nat then ascii_of_nat (n + 32) else c.

Fixpoint toLowerCase (s : string) : string :=
  match s with
  | EmptyString => EmptyString
  | String c rest => String (lowerAscii c) (toLowerCase rest)
  end.

(** [s.endsWith(suffix)] *)
Definition endsWith (s suffix : string) : bool :=
  let ls := String.length s in
  let lx := String.length suffix in
  if (ls <? lx)%nat then false
  else String.eqb (substring (ls - lx) lx s) suffix.

(** A dropped or chosen file. *)
Record File : Type := mkFile {
  name : string;
  fileBytes : completion PdfJs.ArrayBuffer
}.

(** The start screen's inputs; a number input gives what [parseFloat]
    reads, nothing for [NaN]. *)
Record StartForm : Type := mkStartForm {
  locationSelect : string;
  splitInput : option Q;
  scaleInput : option Q;
  nextPreviewCheckbox : bool
}.

(** [parseFloat(v) || d]: [NaN] and 0 give way to the default. *)
Definition parsedOr (v : option Q) (d : Q) : Q :=
  match v with
  | Some q => if Qeq_bool q 0 then d else q
  | None => d
  end.

Definition applySettings (form : StartForm) (st : AppState) : AppState :=
  set_settings (locationSelect form) (parsedOr (splitInput form) (1 # 2)%Q)
    (parsedOr (scaleInput form) 1%Q) (nextPreviewCheckbox form) st.

(** A mouse event and the preview canvas's bounding box when it fires. *)
Record MouseEvent : Type := mkMouseEvent {
  button : Z;
  clientX : Q;
  clientY : Q
}.

Record DOMRect : Type := mkDOMRect {
  left : Q;
  top : Q;
  rectWidth : Q;
  rectHeight : Q
}.

Definition POINTER_THROTTLE_MS : Z := 33.

(** [getPointerCoords(e)], for a canvas box of non-zero width and
    height. *)
Definition getPointerCoords (e : MouseEvent) (canvasRect : DOMRect)
  : option (Q * Q) :=
  let px := ((clientX e - left canvasRect) / rectWidth canvasRect)%Q in
  let py := ((clientY e - top canvasRect) / rectHeight canvasRect)%Q in
  if Qltb px 0 || Qltb 1 px || Qltb py 0 || Qltb 1 py then None
  else Some (px, py).

(** [updatePresenterPointer(x, y, active)], as far as the overlay's
    visibility goes. *)
Definition updatePresenterPointer (px py : option Q) (active : bool)
    (wd : World) : World :=
  match active, px, py with
  | true, Some _, Some _ => set_presenterPointerHidden false wd
  | _, _, _ => set_presenterPointerHidden true wd
  end.

Section WithSession.

Variable session : string.
Variable fetch : string -> completion PdfRenderer.Response.

Local Open Scope js_scope.

(** [renderCurrentPage()]: the three renders in order inside one [try];
    a throw skips the rest and is reported by a toast. *)
Definition renderCurrentPage (wd : World) : World :=
  let page := currentPage (app wd) in
  tryCatch
    (PdfRenderer.renderAudienceSlide page ;;;
     PdfRenderer.renderNotesArea page ;;;
     (fun wd1 =>
        if showNextPreview (app wd1) && (page <? totalPages (app wd1))%Z
        then PdfRenderer.renderAudienceSlide (page + 1) wd1
        else (Return None, wd1)))
    wd.

(** [navigateTo(page)]: the new state and the messages posted.  The
    pointer overlay element is on the page, so the test
    [if (elements.presenterPointer)] passes. *)
Definition navigateTo (page : Z) (wd : World)
  : World * list Sync.Message :=
  if (page <? 1)%Z || (page >? totalPages (app wd))%Z then (wd, [])
  else
    let wd1 := with_app (set_currentPage page) wd in
    let out1 := Sync.sendPointerToAudience session None None false
                  (app wd1) in
    let wd2 := set_presenterPointerHidden true wd1 in
    let wd3 := renderCurrentPage wd2 in
    let out2 := Sync.sendNavigateToAudience session page (app wd3) in
    (wd3, out1 ++ out2).

Definition nextPage (wd : World) : World * list Sync.Message :=
  navigateTo (currentPage (app wd) + 1) wd.

Definition prevPage (wd : World) : World * list Sync.Message :=
  navigateTo (currentPage (app wd) - 1) wd.

(** [handleFileSelect(file)] *)
Definition handleFileSelect (file : option File) (form : StartForm)
    (wd : World) : World :=
  match file with
  | None => wd
  | Some f =>
      if negb (endsWith (toLowerCase (name f)) ".pdf") then wd
      else
        tryCatch
          (fun wd0 =>
             match fileBytes f with
             | Throw e => (Throw e, wd0)
             | Return buffer =>
                 (PdfRenderer.loadPdfFromBuffer buffer ;;;
                  (fun wd1 =>
                     (Return tt,
                      renderCurrentPage
                        (with_app (applySettings form) wd1)))) wd0
             end)
          wd
  end.

(** [handleUrlLoad()], given the trimmed text of the URL input. *)
Definition handleUrlLoad (url : string) (form : StartForm) (wd : World)
  : World :=
  if String.eqb url "" then wd
  else
    tryCatch
      (PdfRenderer.loadPdfFromUrl fetch url ;;;
       (fun wd1 =>
          (Return tt,
           renderCurrentPage (with_app (applySettings form) wd1))))
      wd.

(** The home button, once the user confirms. *)
Definition goHome (confirmed : bool) (wd : World) : World :=
  if confirmed then
    with_app
      (fun s =>
         set_pageCache (JSMap.clear (pageCache s))
           (set_currentPage 1
              (set_totalPages 0
                 (set_pdfUrl None (set_pdfData None (set_pdfDoc None s))))))
      wd
  else wd.

(** [sendPointerThrottled(x, y, active)] *)
Definition sendPointerThrottled (now : Z) (px py : option Q)
    (active : bool) (wd : World) : World * list Sync.Message :=
  if (now - lastPointerSendTime wd >=? POINTER_THROTTLE_MS)%Z then
    (set_lastPointerSendTime now wd,
     Sync.sendPointerToAudience session px py active (app wd))
  else (wd, []).

(** The four mouse listeners on the preview wrapper. *)
Definition onMouseDown (e : MouseEvent) (canvasRect : DOMRect)
    (wd : World) : World * list Sync.Message :=
  if negb (button e =? 0)%Z then (wd, [])
  else
    let wd1 := set_isPointerActive true wd in
    match getPointerCoords e canvasRect with
    | Some (px, py) =>
        (updatePresenterPointer (Some px) (Some py) true wd1,
         Sync.sendPointerToAudience session (Some px) (Some py) true
           (app wd1))
    | None => (wd1, [])
    end.

Definition onMouseMove (now : Z) (e : MouseEvent) (canvasRect : DOMRect)
    (wd : World) : World * list Sync.Message :=
  if negb (isPointerActive wd) then (wd, [])
  else
    match getPointerCoords e canvasRect with
    | Some (px, py) =>
        sendPointerThrottled now (Some px) (Some py) true
          (updatePresenterPointer (Some px) (Some py) true wd)
    | None =>
        (updatePresenterPointer None None false wd,
         Sync.sendPointerToAudience session None None false (app wd))
    end.

Definition onMouseUp (e : MouseEvent) (wd : World)
  : World * list Sync.Message :=
  if negb (button e =? 0)%Z then (wd, [])
  else
    let wd1 := set_isPointerActive false wd in
    (updatePresenterPointer None None false wd1,
     Sync.sendPointerToAudience session None None false (app wd1)).

Definition onMouseLeave (wd : World) : World * list Sync.Message :=
  if isPointerActive wd then
    let wd1 := set_isPointerActive false wd in
    (updatePresenterPointer None None false wd1,
     Sync.sendPointerToAudience session None None false (app wd1))
  else (wd, []).

(** What the user can do to the preview, with the clock reading of each
    move. *)
Inductive UiEvent : Type :=
| MouseDown (e : MouseEvent) (canvasRect : DOMRect)
| MouseMove (now : Z) (e : MouseEvent) (canvasRect : DOMRect)
| MouseUp (e : MouseEvent)
| MouseLeave
| Navigate (page : Z).

Definition dispatch (ev : UiEvent) (wd : World)
  : World * list Sync.Message :=
  match ev with
  | MouseDown e r => onMouseDown e r wd
  | MouseMove now e r => onMouseMove now e r wd
  | MouseUp e => onMouseUp e wd
  | MouseLeave => onMouseLeave wd
  | Navigate page => navigateTo page wd
  end.

Fixpoint dispatchAll (evs : list UiEvent) (wd : World)
  : World * list Sync.Message :=
  match evs with
  | [] => (wd, [])
  | ev :: rest =>
      let (wd1, out1) := dispatch ev wd in
      let (wd2, out2) := dispatchAll rest wd1 in
      (wd2, out1 ++ out2)
  end.

End WithSession.






(** [updatePageDisplay()]: the two texts and the two [disabled] flags. *)
Record PageDisplay : Type := mkPageDisplay {
  pageCurrentText : Z;
  pageTotalText : Z;
  prevDisabled : bool;
  nextDisabled : bool
}.

Definition updatePageDisplay (st : AppState) : PageDisplay :=
  mkPageDisplay (currentPage st) (totalPages st)
    (currentPage st <=? 1) (currentPage st >=? totalPages st).

(** [updateConnectionStatus()]: the badge text and the button text. *)
Definition updateConnectionStatus (st : AppState) : string * string :=
  if Sync.isAudienceConnected_query st then ("Connected", "Reconnect")
  else ("Not connected", "Open Audience").

(** Where [updatePresenterPointer] puts the overlay, in pixels inside the
    wrapper, for normalized coordinates on the canvas. *)
Definition pointerPosition (px py : Q) (canvasRect wrapperRect : DOMRect)
  : Q * Q :=
  let offsetX := (left canvasRect - left wrapperRect)%Q in
  let offsetY := (top canvasRect - top wrapperRect)%Q in
  ((offsetX + px * rectWidth canvasRect)%Q,
   (offsetY + py * rectHeight canvasRect)%Q).

(** A [keydown] event: the tag of its target, whether the target is the
    jump input, the key and the code; and what [parseInt] reads in the
    jump input (nothing for [NaN]). *)
Record KeyboardEvent : Type := mkKeyboardEvent {
  targetTagName : string;
  targetIsJumpInput : bool;
  key : string;
  code : string;
  jumpValue : option Z
}.

Section Keyboard.

Variable session : string.

(** [requestAudienceFullscreen()]: the message has the session id and the
    type only; [EmptyPayload] stands for its missing payload. *)
Definition requestAudienceFullscreen (st : AppState) : list Sync.Message :=
  if Sync.audienceAvailable st
  then [Sync.mkMessage session "REQUEST_FULLSCREEN" Sync.EmptyPayload]
  else [].

(** The [keydown] listener of [setupKeyboardShortcuts]. *)
Definition onKeydown (e : KeyboardEvent) (wd : World)
  : World * list Sync.Message :=
  if String.eqb (targetTagName e) "INPUT" then
    if String.eqb (key e) "Enter" && targetIsJumpInput e then
      match jumpValue e with
      | Some page => navigateTo session page wd
      | None => (wd, [])
      end
    else (wd, [])
  else if includes shortcuts_next (code e) then nextPage session wd
  else if includes shortcuts_prev (code e) then prevPage session wd
  else if includes shortcuts_first (code e) then navigateTo session 1 wd
  else if includes shortcuts_last (code e) then
    navigateTo session (totalPages (app wd)) wd
  else if includes shortcuts_fullscreen (code e) then
    (wd, requestAudienceFullscreen (app wd))
  else (wd, []).

Fixpoint onKeydowns (events : list KeyboardEvent) (wd : World)
  : World * list Sync.Message :=
  match events with
  | [] => (wd, [])
  | e :: rest =>
      let (wd1, out1) := onKeydown e wd in
      let (wd2, out2) := onKeydowns rest wd1 in
      (wd2, out1 ++ out2)
  end.

End Keyboard.

(** The current page is one of the document's pages. *)
Definition pageInRange (st : AppState) : Prop :=
  1 <= currentPage st <= totalPages st.

End App.

(** ** Concrete documents, pages and sessions used in the examples *)

Module Scenario.

Definition session : string := "3f2b9c1e-session".

(** A landscape page, 800 by 600 at scale 1, that renders. *)
Definition samplePage : PdfJs.PageProxy :=
  PdfJs.mkPage 800%Q 600%Q None.

(** A ten-page document. *)
Definition sampleDoc : PdfJs.PDFDocumentProxy :=
  PdfJs.mkDoc 10
    (fun n =>
       if (1 <=? n) && (n <=? 10) then Return samplePage
       else Throw "Invalid page request").

(** Bytes that open with the PDF signature, and bytes that do not. *)
Definition goodBytes : PdfJs.ArrayBuffer := [x25; x50; x44; x46; x2d; x31].
Definition badBytes : PdfJs.ArrayBuffer := [x47; x49; x46; x38].

(** An engine that accepts what starts with the signature. *)
Definition sampleLibrary : PdfJs.Library :=
  PdfJs.mkLibrary
    (fun buffer =>
       match buffer with
       | x25 :: x50 :: x44 :: x46 :: _ => Return sampleDoc
       | _ => Throw "Invalid PDF structure"
       end).

(** A network that serves one good file, one bad file, one 404. *)
Definition sampleFetch (url : string) : completion PdfRenderer.Response :=
  if String.eqb url "https://example.org/talk.pdf" then
    Return (PdfRenderer.mkResponse true 200 "OK" (Return goodBytes))
  else if String.eqb url "https://example.org/logo.gif" then
    Return (PdfRenderer.mkResponse true 200 "OK" (Return badBytes))
  else if String.eqb url "https://example.org/missing.pdf" then
    Return (PdfRenderer.mkResponse false 404 "Not Found" (Return []))
  else Throw "TypeError: Failed to fetch".

(** The page right after [init]: PDF.js ready, nothing loaded. *)
Definition startWorld : World :=
  mkWorld initialAppState (Some sampleLibrary) 1%Q 0 false 0 true false 0.

Definition defaultForm : App.StartForm :=
  App.mkStartForm "right" (Some (1 # 2)%Q) (Some 2%Q) true.

(** The ten-page document loaded from a dropped file. *)
Definition loadedWorld : World :=
  App.handleFileSelect (Some (App.mkFile "talk.pdf" (Return goodBytes)))
    defaultForm startWorld.

(** The document just parsed by [loadPdfFromBuffer]: the cache is empty. *)
Definition freshlyLoaded : World :=
  snd (PdfRenderer.loadPdfFromBuffer goodBytes startWorld).

(** The same page after the audience window was opened. *)
Definition openWindow (wd : World) : World :=
  with_app (set_audienceWindow (Some (Dom.mkWindow false))) wd.

Definition presentingWorld : World := openWindow loadedWorld.


Definition previewRect : App.DOMRect := App.mkDOMRect 0 0 400 300.

(** A move to the middle of the preview, and one off its right edge. *)
Definition moveInside : App.MouseEvent := App.mkMouseEvent 0 200 150.


(** Requests for the full pages [1 .. n] at scale 2. *)
Definition firstPages (n : nat) : list (Z * Q) :=
  List.map (fun i => (Z.of_nat (S i), 2%Q)) (List.seq 0 n).

End Scenario.

(** * Properties *)

(** ** Region model *)

Module ConfigFacts.

Local Open Scope Q_scope.

Set Warnings "-inexact-float".

Lemma Qle_boolP (a b : Q) : reflect (a <= b) (Qle_bool a b).
Proof. apply iff_reflect. symmetry. apply Qle_bool_iff. Qed.

Lemma QltbP (a b : Q) : reflect (a < b) (Qltb a b).
Proof.
  unfold Qltb. destruct (Qle_boolP b a); simpl; constructor; lra.
Qed.

(** Split every comparison in the goal and settle the cases by linear
    arithmetic. *)
Ltac qcases :=
  repeat match goal with
  | |- context [Qle_bool ?a ?b] => destruct (Qle_boolP a b)
  | |- context [Qltb ?a ?b] => destruct (QltbP a b)
  end; simpl; try reflexivity; try (exfalso; lra).

Lemma known_location_cases (location : string) :
  known_location location = true ->
  location = "right" \/ location = "left" \/ location = "top"
  \/ location = "bottom".
Proof.
  unfold known_location.
  destruct (String.eqb_spec location "right"); [auto|].
  destruct (String.eqb_spec location "left"); [auto|].
  destruct (String.eqb_spec location "top"); [auto|].
  destruct (String.eqb_spec location "bottom"); [auto|].
  discriminate.
Qed.

Lemma unknown_location_cases (location : string) :
  known_location location = false ->
  String.eqb location "right" = false /\ String.eqb location "left" = false
  /\ String.eqb location "top" = false
  /\ String.eqb location "bottom" = false.
Proof.
  unfold known_location. intros H.
  repeat (apply orb_false_iff in H; destruct H as [H ?]). auto.
Qed.

Lemma getRegions_unknown {N : Type} `{Number N} (width height split : N)
    (location : string) :
  known_location location = false ->
  getRegions width height location split = mkRegions zeroRect zeroRect.
Proof.
  intros Hl. apply unknown_location_cases in Hl.
  destruct Hl as (H1 & H2 & H3 & H4).
  unfold getRegions. now rewrite H1, H2, H3, H4.
Qed.

Lemma split_parts (v s : Q) :
  0 < v -> 0 < s -> s < 1 -> 0 < v * s /\ 0 < v * (1 - s).
Proof.
  intros Hv Hs Hs1. split; apply Qmult_lt_0_compat; lra.
Qed.

(** In exact arithmetic, for a positive width and height, a split
    strictly between 0 and 1 and one of the four locations, the audience
    and the notes regions share no pixel and together are exactly the
    pixels of the full rectangle; for right and left the widths add up to
    the full width, for top and bottom the heights add up to the full
    height; the areas add up to the full area. *)
Lemma getRegions_exact_partition (width height split : Q)
    (location : string) :
  0 < width -> 0 < height -> 0 < split -> split < 1 ->
  known_location location = true ->
  let r := getRegions width height location split in
  (forall px py,
      contains (audience r) px py && contains (notes r) px py = false)
  /\ (forall px py,
      contains (audience r) px py || contains (notes r) px py
      = contains (mkRect 0 0 width height) px py)
  /\ (location = "right" \/ location = "left" ->
      w (audience r) + w (notes r) == width)
  /\ (location = "top" \/ location = "bottom" ->
      h (audience r) + h (notes r) == height)
  /\ area (audience r) + area (notes r) == width * height.
Proof.
  intros Hw Hh Hs Hs1 Hloc r.
  destruct (split_parts width split Hw Hs Hs1) as [Hws Hws'].
  destruct (split_parts height split Hh Hs Hs1) as [Hhs Hhs'].
  apply known_location_cases in Hloc.
  destruct Hloc as [-> | [-> | [-> | ->]]]; subst r;
    cbn [getRegions String.eqb Ascii.eqb Bool.eqb audience notes];
    (split; [| split; [| split; [| split]]]).
  all: try (intros px py; unfold contains;
            cbn [x y w h num_zero num_one num_add num_sub num_mul
                 num_leb num_ltb rational]; qcases).
  all: try (intros [E | E]; try discriminate E;
            cbn [x y w h audience notes num_zero num_one num_add num_sub
                 num_mul rational]; ring).
  all: try (unfold area;
            cbn [w h num_zero num_one num_add num_sub num_mul rational];
            ring).
Qed.

(** The end-to-end example of the spec: location right, split one half,
    in binary64 and in exact arithmetic. *)
Example getRegions_right_half :
  getRegions 1600%float 1200%float "right" 0.5%float
  = mkRegions (mkRect 0%float 0%float 800%float 1200%float)
              (mkRect 800%float 0%float 800%float 1200%float)
  /\ getRegions 1600 1200 "right" (1 # 2)
     = mkRegions (mkRect 0 0 (1600 * (1 # 2)) 1200)
                 (mkRect (1600 * (1 # 2)) 0 (1600 * (1 - (1 # 2))) 1200).
Proof. split; [vm_compute; reflexivity | reflexivity]. Qed.

(** *** Binary64 comparisons *)

Lemma SFcompare_antisym (a b : SpecFloat.spec_float) :
  SpecFloat.SFcompare b a = option_map CompOpp (SpecFloat.SFcompare a b).
Proof.
  destruct a as [sa | sa | | sa ma ea], b as [sb | sb | | sb mb eb];
    cbn [SpecFloat.SFcompare option_map CompOpp];
    try reflexivity;
    try (destruct sa; reflexivity);
    try (destruct sb; reflexivity);
    try (destruct sa, sb; reflexivity).
  destruct sa, sb; cbn [CompOpp]; try reflexivity;
    rewrite (Z.compare_antisym ea eb);
    change Eq with (CompOpp Eq) at 1;
    rewrite <- (Pos.compare_cont_antisym ma mb Eq);
    destruct (ea ?= eb)%Z; cbn [CompOpp]; try reflexivity;
    destruct (Pos.compare_cont Eq ma mb); reflexivity.
Qed.

(** [a < b] and [b <= a] do not both hold, NaN and the two zeros
    included. *)
Lemma ltb_leb_false (a b : float) :
  PrimFloat.ltb a b = true -> PrimFloat.leb b a = false.
Proof.
  rewrite ltb_spec, leb_spec. unfold SpecFloat.SFltb, SpecFloat.SFleb.
  rewrite (SFcompare_antisym (Prim2SF a) (Prim2SF b)).
  destruct (SpecFloat.SFcompare (Prim2SF a) (Prim2SF b)) as [[| |]|];
    cbn; congruence.
Qed.

(** Adding to zero does not move a bound: [0 + a] compares as [a]. *)
Lemma ltb_zero_add (p a : float) :
  PrimFloat.ltb p (0 + a)%float = PrimFloat.ltb p a.
Proof.
  rewrite !ltb_spec, add_spec.
  change (Prim2SF 0%float) with (SpecFloat.S754_zero false).
  unfold SF64add.
  destruct (Prim2SF a) as [s | s | | s m e]; try reflexivity.
  cbn [SpecFloat.SFadd]. destruct s; cbn; reflexivity.
Qed.

(** A span that starts at zero and one that starts at the first one's
    extent share no coordinate. *)
Lemma adjacent_spans_disjoint (p a : float) :
  PrimFloat.ltb p (0 + a)%float && PrimFloat.leb a p = false.
Proof.
  rewrite ltb_zero_add.
  destruct (PrimFloat.ltb p a) eqn:Hlt; [|reflexivity].
  now rewrite (ltb_leb_false p a Hlt).
Qed.

(** Settle a conjunction of comparisons that holds one of the pairs of
    [adjacent_spans_disjoint]. *)
Ltac spans p a :=
  pose proof (adjacent_spans_disjoint p a) as Hspan;
  destruct (PrimFloat.ltb p (0 + a)%float);
  [ cbn [andb] in Hspan; rewrite Hspan | ];
  repeat (cbn [andb]; rewrite ?andb_false_r); reflexivity.

(** C1, as stated, fails in the arithmetic of the code.  For width 1600,
    location right and split 0.34 the audience is 544 wide and the notes
    1055.9999999999998, which add up to 1599.9999999999998 and not to
    1600; the pixel column 1599.9999999999998 of the full rectangle is in
    neither region.  For width 640 and split 0.08 the two widths add up
    to 640.0000000000001, more than the full width. *)
Lemma getRegions_widths_miss_full_width :
  let r := getRegions 1600%float 1200%float "right" 0.34%float in
  let r' := getRegions 640%float 480%float "right" 0.08%float in
  let column := 1599.9999999999998%float in
  known_location "right" = true
  /\ PrimFloat.ltb 0 0.34 && PrimFloat.ltb 0.34 1 = true
  /\ PrimFloat.ltb 0 0.08 && PrimFloat.ltb 0.08 1 = true
  /\ w (audience r) = 544%float
  /\ w (notes r) = 1055.9999999999998%float
  /\ (w (audience r) + w (notes r))%float = column
  /\ PrimFloat.eqb (w (audience r) + w (notes r)) 1600 = false
  /\ contains (mkRect 0 0 1600 1200)%float column 0%float = true
  /\ contains (audience r) column 0%float
     || contains (notes r) column 0%float = false
  /\ (w (audience r') + w (notes r'))%float = 640.0000000000001%float
  /\ PrimFloat.ltb 640 (w (audience r') + w (notes r')) = true.
Proof. vm_compute. repeat split. Qed.

(** C1, amended.  In the binary64 arithmetic of the code, for every
    width, height and split and each of the four locations: the audience
    and the notes regions share no pixel; for right and left both have
    the full height and start at the top, for top and bottom both have
    the full width and start at the left; one region starts at zero and
    the other starts exactly at the first one's extent (for right the
    notes start at the audience's width, left mirrors it, top and bottom
    do the same with heights); for right the two rectangles are the ones
    the spec writes out, the products and the difference being binary64
    operations.  In exact arithmetic, for a positive width and height and
    a split strictly between 0 and 1, the regions moreover cover the full
    rectangle, and the widths (right, left) or heights (top, bottom) add
    up to the full size. *)
Theorem getRegions_adjacent_regions :
  (forall (width height split : float) (location : string),
      known_location location = true ->
      let r := getRegions width height location split in
      (forall px py,
          contains (audience r) px py && contains (notes r) px py = false)
      /\ (location = "right" \/ location = "left" ->
          h (audience r) = height /\ h (notes r) = height
          /\ y (audience r) = 0%float /\ y (notes r) = 0%float)
      /\ (location = "top" \/ location = "bottom" ->
          w (audience r) = width /\ w (notes r) = width
          /\ x (audience r) = 0%float /\ x (notes r) = 0%float)
      /\ (location = "right" ->
          x (audience r) = 0%float /\ x (notes r) = w (audience r))
      /\ (location = "left" ->
          x (notes r) = 0%float /\ x (audience r) = w (notes r))
      /\ (location = "bottom" ->
          y (audience r) = 0%float /\ y (notes r) = h (audience r))
      /\ (location = "top" ->
          y (notes r) = 0%float /\ y (audience r) = h (notes r))
      /\ (location = "right" ->
          audience r = mkRect 0 0 (width * split) height
          /\ notes r
             = mkRect (width * split) 0 (width * (1 - split)) height)%float)
  /\ (forall (width height split : Q) (location : string),
        0 < width -> 0 < height -> 0 < split -> split < 1 ->
        known_location location = true ->
        let r := getRegions width height location split in
        (forall px py,
            contains (audience r) px py && contains (notes r) px py = false)
        /\ (forall px py,
            contains (audience r) px py || contains (notes r) px py
            = contains (mkRect 0 0 width height) px py)
        /\ (location = "right" \/ location = "left" ->
            w (audience r) + w (notes r) == width)
        /\ (location = "top" \/ location = "bottom" ->
            h (audience r) + h (notes r) == height)).
Proof.
  split.
  - intros width height split location Hloc r.
    apply known_location_cases in Hloc.
    destruct Hloc as [-> | [-> | [-> | ->]]]; subst r;
      cbn [getRegions String.eqb Ascii.eqb Bool.eqb audience notes];
      (split; [intros px py; unfold contains;
               cbn [x y w h num_zero num_one num_add num_sub num_mul
                    num_leb num_ltb binary64] |]).
    all: try (repeat match goal with |- _ /\ _ => split end;
              intros E; try (destruct E as [E | E]); try discriminate E;
              repeat split; reflexivity).
    + spans px (width * split)%float.
    + spans px (width * split)%float.
    + spans py (height * split)%float.
    + spans py (height * split)%float.
  - intros width height split location Hw Hh Hs Hs1 Hloc r.
    destruct (getRegions_exact_partition width height split location
                Hw Hh Hs Hs1 Hloc) as (Hdisj & Hcover & Hws & Hhs & _).
    split; [exact Hdisj | split; [exact Hcover | split; assumption]].
Qed.

Lemma getRegions_adjacent_regions_witness :
  let r := getRegions 1600%float 1200%float "right" 0.34%float in
  let q := getRegions 1920 1080 "left" (2 # 5) in
  (forall px py,
      contains (audience r) px py && contains (notes r) px py = false)
  /\ x (notes r) = w (audience r)
  /\ h (notes r) = 1200%float
  /\ (forall px py,
         contains (audience q) px py || contains (notes q) px py
         = contains (mkRect 0 0 1920 1080) px py)
  /\ w (audience q) + w (notes q) == 1920.
Proof.
  destruct getRegions_adjacent_regions as [Hcode Hexact].
  destruct (Hcode 1600%float 1200%float 0.34%float "right" eq_refl)
    as (Hdisj & Hrows & _ & Hright & _).
  destruct (Hexact 1920 1080 (2 # 5) "left")
    as (_ & Hcover & Hwidths & _); try reflexivity.
  cbv zeta. split; [exact Hdisj | split; [| split; [| split]]].
  - apply Hright. reflexivity.
  - apply Hrows. left. reflexivity.
  - exact Hcover.
  - apply Hwidths. right. reflexivity.
Defined.

(** C9, as stated, fails: a location outside the four makes the call
    return, it does not throw. *)
Lemma getRegions_no_fail_fast :
  known_location "center" = false
  /\ threw (getRegions_call 1920 1080 "center" (1 # 2)) = false.
Proof. split; reflexivity. Qed.

(** C9, amended.  For a location outside the four, [getRegions] signals no
    error: the call returns, and what it returns is one silent default
    that depends neither on the sizes, nor on the split, nor on which
    unknown location was passed. *)
Theorem getRegions_unknown_location_silent
    (width height split width' height' split' : Q)
    (location location' : string) :
  known_location location = false ->
  known_location location' = false ->
  threw (getRegions_call width height location split) = false
  /\ getRegions_call width height location split
     = getRegions_call width' height' location' split'.
Proof.
  intros H H'. unfold getRegions_call.
  rewrite !getRegions_unknown by assumption. split; reflexivity.
Qed.

Lemma getRegions_unknown_location_silent_witness :
  threw (getRegions_call 1920 1080 "center" (1 # 2)) = false
  /\ getRegions_call 1920 1080 "center" (1 # 2)
     = getRegions_call 640 480 "" (9 # 10).
Proof.
  apply getRegions_unknown_location_silent; reflexivity.
Defined.

(** C10.  For every width, height and split and every location outside
    the four, the call returns normally and both regions are the zero
    rectangle; the result is a function of the arguments alone, so every
    caller of [getRegions] gets this same default. *)
Theorem getRegions_unknown_location_zero
    (width height split : Q) (location : string) :
  known_location location = false ->
  getRegions_call width height location split
  = Return (mkRegions (mkRect 0 0 0 0) (mkRect 0 0 0 0)).
Proof.
  intros H. unfold getRegions_call. now rewrite getRegions_unknown.
Qed.

Lemma getRegions_unknown_location_zero_witness :
  getRegions_call 1920 1080 "diagonal" (1 # 2)
  = Return (mkRegions (mkRect 0 0 0 0) (mkRect 0 0 0 0)).
Proof.
  apply getRegions_unknown_location_zero. reflexivity.
Defined.

End ConfigFacts.

(** ** Handshake *)

Module SyncFacts.

Import Sync.

Section Handshake.

Variable session : string.

(** One message changes at most the connected flag. *)
Lemma handleAudienceMessage_state (event : MessageEvent) (onConnect : bool)
    (st : AppState) :
  let st' := fst (fst (handleAudienceMessage session event onConnect st)) in
  st' = st \/ st' = set_isAudienceConnected true st.
Proof.
  unfold handleAudienceMessage.
  destruct (falsy_type _); [left; reflexivity|].
  destruct (String.eqb _ HELLO); [right | left]; reflexivity.
Qed.

Lemma handleAudienceMessages_state (history : list MessageEvent)
    (onConnect : bool) (st : AppState) :
  let st' := fst (handleAudienceMessages session history onConnect st) in
  st' = st \/ st' = set_isAudienceConnected true st.
Proof.
  revert st. induction history as [|e rest IH]; intros st; simpl.
  - left; reflexivity.
  - pose proof (handleAudienceMessage_state e onConnect st) as H1.
    destruct (handleAudienceMessage session e onConnect st)
      as [[st1 out1] called].
    specialize (IH st1).
    destruct (handleAudienceMessages session rest onConnect st1)
      as [st2 out2].
    simpl in *.
    destruct H1 as [-> | ->]; destruct IH as [-> | ->]; auto.
Qed.

(** What a [HELLO] does to any state. *)
Lemma handleAudienceMessage_hello (d : MessageData) (onConnect : bool)
    (st : AppState) :
  data_type d = Some HELLO ->
  handleAudienceMessage session (mkMessageEvent (Some d)) onConnect st
  = (set_isAudienceConnected true st,
     if audienceAvailable st then fullResync session st else [],
     onConnect).
Proof.
  intros Hd. unfold handleAudienceMessage. cbn [data]. rewrite Hd.
  cbn [falsy_type orElse]. change (String.eqb HELLO "") with false.
  rewrite String.eqb_refl. cbv iota.
  unfold sendStateToAudience, sendPdfDataToAudience, sendToAudience,
    fullResync, stateMessage, pdfDataMessage, audienceAvailable,
    PdfJs.slice0.
  destruct st as [? data ? ? ? ? ? ? ? ? win ? ? ? ? ?]; cbn.
  destruct win as [[[|]]|]; destruct data; reflexivity.
Qed.

(** C2, as stated, fails: with no audience window handle (the page's
    state before a window was opened from it) a [HELLO] marks the
    audience connected and posts nothing, although a document is
    loaded. *)
Lemma hello_without_window_posts_nothing :
  let st := app Scenario.loadedWorld in
  let result :=
    handleAudienceMessage Scenario.session
      (helloEvent Scenario.session) true st in
  pdfData st = Some Scenario.goodBytes
  /\ isAudienceConnected (fst (fst result)) = true
  /\ snd (fst result) = [].
Proof. vm_compute. repeat split. Qed.

(** C2, amended.  A [HELLO] marks the audience connected and leaves the
    document bytes as they are; when the audience window handle is there
    and not closed it posts [STATE] and then, exactly when document
    bytes are loaded, [PDF_DATA] carrying a copy of them; without a live
    handle it posts nothing.  This answer is the same after any history
    of audience messages, earlier [HELLO]s included. *)
Theorem hello_resync (history : list MessageEvent) (d : MessageData)
    (onConnect : bool) (st : AppState) :
  data_type d = Some HELLO ->
  let st_h := fst (handleAudienceMessages session history onConnect st) in
  let result :=
    handleAudienceMessage session (mkMessageEvent (Some d)) onConnect
      st_h in
  isAudienceConnected (fst (fst result)) = true
  /\ pdfData (fst (fst result)) = pdfData st
  /\ snd (fst result)
     = (if audienceAvailable st then
          stateMessage session st ::
          match pdfData st with
          | Some buffer => [pdfDataMessage session buffer st]
          | None => []
          end
        else [])
  /\ snd result = onConnect.
Proof.
  intros Hd st_h result. subst result.
  rewrite (handleAudienceMessage_hello d onConnect st_h Hd). cbn [fst snd].
  pose proof (handleAudienceMessages_state history onConnect st) as Hst.
  fold st_h in Hst. cbv zeta in Hst.
  destruct Hst as [-> | ->]; repeat split; reflexivity.
Qed.

End Handshake.

Lemma hello_resync_witness :
  let st := app Scenario.presentingWorld in
  let hello := helloEvent Scenario.session in
  let st_h :=
    fst (handleAudienceMessages Scenario.session [hello; hello] true st) in
  snd (fst (handleAudienceMessage Scenario.session hello true st_h))
  = [stateMessage Scenario.session st;
     pdfDataMessage Scenario.session Scenario.goodBytes st].
Proof.
  intros st hello st_h.
  destruct (hello_resync Scenario.session [hello; hello]
              (mkMessageData (Some Scenario.session) (Some HELLO)
                 (Some EmptyPayload)) true st) as (_ & _ & H & _).
  - reflexivity.
  - exact H.
Defined.

End SyncFacts.

(** ** Page cache *)

Module CacheFacts.

Import PdfRenderer.

Section MapFacts.

Context {K V : Type}.
Variable eqb : K -> K -> bool.
Hypothesis eqb_refl : forall k, eqb k k = true.

Lemma set_size_le (k : K) (v : V) (m : JSMap.t) :
  (JSMap.size (JSMap.set eqb k v m) <= S (JSMap.size m))%nat.
Proof.
  induction m as [|[k' v'] m IH]; simpl; [lia|].
  destruct (eqb k' k); simpl in *; lia.
Qed.

Lemma set_fresh (k : K) (v : V) (m : JSMap.t) :
  JSMap.get eqb k m = None -> JSMap.set eqb k v m = m ++ [(k, v)].
Proof.
  induction m as [|[k' v'] m IH]; simpl; [reflexivity|].
  destruct (eqb k' k); [discriminate|]. intros H. now rewrite IH.
Qed.

Lemma delete_first (k : K) (v : V) (m : JSMap.t) :
  JSMap.delete eqb k ((k, v) :: m) = m.
Proof. simpl. now rewrite eqb_refl. Qed.

Lemma get_tail_none (k : K) (m : @JSMap.t K V) :
  JSMap.get eqb k m = None -> JSMap.get eqb k (tl m) = None.
Proof.
  destruct m as [|[k' v'] m]; simpl; [auto|].
  destruct (eqb k' k); [discriminate | auto].
Qed.

End MapFacts.

Lemma cacheKey_eqb_refl (k : CacheKey) : cacheKey_eqb k k = true.
Proof.
  unfold cacheKey_eqb. rewrite Z.eqb_refl. simpl.
  apply Qeq_bool_iff. reflexivity.
Qed.

(** Making room removes the head of the [Map] once it holds more than
    five entries. *)
Lemma cacheStore_fresh (key : CacheKey) (canvas : Dom.Canvas)
    (cache : JSMap.t) :
  JSMap.get cacheKey_eqb key cache = None ->
  cacheStore key canvas cache
  = (if (5 <? JSMap.size cache)%nat then tl cache else cache)
      ++ [(key, canvas)].
Proof.
  intros Hmiss. unfold cacheStore.
  destruct (5 <? JSMap.size cache)%nat.
  - destruct cache as [|[k0 c0] rest]; cbn [JSMap.firstKey].
    + now apply set_fresh.
    + rewrite (delete_first cacheKey_eqb cacheKey_eqb_refl).
      apply set_fresh. exact (get_tail_none _ _ _ Hmiss).
  - now apply set_fresh.
Qed.

Lemma cacheStore_size (key : CacheKey) (canvas : Dom.Canvas)
    (cache : JSMap.t) :
  (JSMap.size cache <= 6 -> JSMap.size (cacheStore key canvas cache) <= 6)%nat.
Proof.
  intros Hsize. unfold cacheStore.
  destruct (Nat.ltb_spec 5 (JSMap.size cache)) as [Hbig | Hsmall].
  - destruct cache as [|[k0 c0] rest]; [simpl in Hbig; lia|].
    cbn [JSMap.firstKey].
    rewrite (delete_first cacheKey_eqb cacheKey_eqb_refl).
    pose proof (set_size_le cacheKey_eqb key canvas rest).
    simpl in Hsize. unfold JSMap.size in *. lia.
  - pose proof (set_size_le cacheKey_eqb key canvas cache). lia.
Qed.

Lemma renderFullPage_outcome (pageNum : Z) (scale : Q) (wd : World) :
  Outcome pageNum scale wd (renderFullPage pageNum scale wd).
Proof.
  unfold renderFullPage.
  destruct (pdfDoc (app wd)) as [doc|] eqn:Hdoc; [|apply Refused].
  destruct (JSMap.get cacheKey_eqb (pageNum, scale) (pageCache (app wd)))
    as [cached|] eqn:Hget; [now apply Hit|].
  destruct (PdfJs.getPage doc pageNum) as [page|e]; [|apply Refused].
  destruct (PdfJs.renderError page) as [e|]; [apply RenderFailed|].
  apply Stored; [rewrite Hdoc; discriminate | assumption | reflexivity].
Qed.

Lemma renderFullPage_size (pageNum : Z) (scale : Q) (wd : World) :
  (JSMap.size (pageCache (app wd)) <= 6 ->
   JSMap.size (pageCache (app (snd (renderFullPage pageNum scale wd)))) <= 6)%nat.
Proof.
  intros Hsize.
  destruct (renderFullPage_outcome pageNum scale wd); simpl; try assumption.
  now apply cacheStore_size.
Qed.

(** The bound the code keeps: never more than six cached pages. *)
Lemma pageCache_at_most_six (requests : list (Z * Q)) (wd : World) :
  (JSMap.size (pageCache (app wd)) <= 6 ->
   JSMap.size (pageCache (app (renderFullPages requests wd))) <= 6)%nat.
Proof.
  revert wd. induction requests as [|[p s] rest IH]; intros wd H; simpl.
  - exact H.
  - apply IH. now apply renderFullPage_size.
Qed.

(** C3 at its failing input: from the empty cache a fresh load leaves,
    rendering the full pages 1 to 6 stores six canvases; the test
    [size > 5] runs before the insertion, so the sixth insertion evicts
    nothing and the cache holds one entry more than the bound of 5.  The
    presenter gets there by itself: load a document, go to page 2, go to
    page 3. *)
Theorem pageCache_holds_six_entries :
  let wd :=
    renderFullPages (Scenario.firstPages 6) Scenario.freshlyLoaded in
  let shown :=
    fst (App.navigateTo Scenario.session 3
           (fst (App.navigateTo Scenario.session 2 Scenario.loadedWorld))) in
  pageCache (app Scenario.freshlyLoaded) = []
  /\ JSMap.keys (pageCache (app wd))
     = [(1, 2%Q); (2, 2%Q); (3, 2%Q); (4, 2%Q); (5, 2%Q); (6, 2%Q)]
  /\ JSMap.size (pageCache (app wd)) = 6%nat
  /\ JSMap.size (pageCache (app shown)) = 6%nat.
Proof. vm_compute. repeat split. Qed.

Lemma createdInOrder_weaken (b b' : nat) (ids : list nat) :
  (b <= b')%nat -> createdInOrder b ids -> createdInOrder b' ids.
Proof.
  intros Hb. induction ids as [|i rest IH]; simpl; [auto|].
  intros (Hi & Hall & Hrest). repeat split; [lia | assumption | auto].
Qed.

Lemma createdInOrder_snoc (b : nat) (ids : list nat) :
  createdInOrder b ids -> createdInOrder (S b) (ids ++ [b]).
Proof.
  induction ids as [|i rest IH]; simpl.
  - intros _. repeat split; [lia | constructor].
  - intros (Hi & Hall & Hrest). repeat split; [lia | | auto].
    apply Forall_app. split; [assumption | repeat constructor; assumption].
Qed.

Lemma createdInOrder_tl (b : nat) (ids : list nat) :
  createdInOrder b ids -> createdInOrder b (tl ids).
Proof. destruct ids; simpl; [auto | tauto]. Qed.

Lemma cachedIds_app (a b : JSMap.t) :
  cachedIds (a ++ b) = cachedIds a ++ cachedIds b.
Proof. apply map_app. Qed.

Lemma cachedIds_tl (a : JSMap.t) : cachedIds (tl a) = tl (cachedIds a).
Proof. now destruct a. Qed.

Lemma renderFullPage_chronological (pageNum : Z) (scale : Q) (wd : World) :
  chronological wd ->
  chronological (snd (renderFullPage pageNum scale wd)).
Proof.
  unfold chronological. intros H.
  destruct (renderFullPage_outcome pageNum scale wd)
    as [c Hc|e|e|c Hdoc Hc Hid];
    simpl; try assumption.
  - eapply createdInOrder_weaken; [|exact H]. lia.
  - rewrite cacheStore_fresh by assumption.
    rewrite cachedIds_app. simpl. rewrite Hid.
    apply createdInOrder_snoc.
    destruct (5 <? _)%nat; [|assumption].
    rewrite cachedIds_tl. now apply createdInOrder_tl.
Qed.

Lemma renderFullPages_chronological (requests : list (Z * Q)) (wd : World) :
  chronological wd -> chronological (renderFullPages requests wd).
Proof.
  revert wd. induction requests as [|[p s] rest IH]; intros wd H; simpl.
  - exact H.
  - apply IH. now apply renderFullPage_chronological.
Qed.

Lemma renderFullPage_hit (pageNum : Z) (scale : Q) (wd : World) cached :
  pdfDoc (app wd) <> None ->
  JSMap.get cacheKey_eqb (pageNum, scale) (pageCache (app wd)) = Some cached ->
  renderFullPage pageNum scale wd = (Return cached, wd).
Proof.
  intros Hdoc Hget. unfold renderFullPage.
  destruct (pdfDoc (app wd)); [|contradiction]. now rewrite Hget.
Qed.

Lemma renderFullPage_stored (pageNum : Z) (scale : Q) (wd wd' : World)
    canvas :
  JSMap.get cacheKey_eqb (pageNum, scale) (pageCache (app wd)) = None ->
  renderFullPage pageNum scale wd = (Return canvas, wd') ->
  Dom.canvasId canvas = canvasesCreated wd
  /\ pageCache (app wd')
     = cacheStore (pageNum, scale) canvas (pageCache (app wd)).
Proof.
  intros Hmiss Hrun.
  destruct (renderFullPage_outcome pageNum scale wd)
    as [c Hc|e|e|c Hdoc Hc Hid]; try discriminate Hrun.
  - congruence.
  - injection Hrun as <- <-. split; [assumption | reflexivity].
Qed.

Lemma renderFullPage_cacheNeedsDoc (pageNum : Z) (scale : Q) (wd : World) :
  cacheNeedsDoc wd -> cacheNeedsDoc (snd (renderFullPage pageNum scale wd)).
Proof.
  unfold cacheNeedsDoc. intros H.
  destruct (renderFullPage_outcome pageNum scale wd)
    as [c Hc|e|e|c Hdoc Hc Hid]; simpl; try assumption.
  intros Hnone. contradiction.
Qed.

Lemma renderFullPages_cacheNeedsDoc (requests : list (Z * Q)) (wd : World) :
  cacheNeedsDoc wd -> cacheNeedsDoc (renderFullPages requests wd).
Proof.
  revert wd. induction requests as [|[p s] rest IH]; intros wd H; simpl.
  - exact H.
  - apply IH. now apply renderFullPage_cacheNeedsDoc.
Qed.

(** C4.  Start from an empty page cache and run any sequence of
    [renderFullPage] calls.  A canvas is stored right after it is created,
    so along the [Map] the canvas identities (creation ranks) tell the
    order of insertion.  In the state reached, a call for a cached key
    returns the cached canvas and changes nothing, the order of the
    entries included; a call for a new key that renders appends the new
    entry, and when more than five entries are cached it first removes
    the entry at the head, whose canvas is older than every entry that
    stays and than the new one: the oldest inserted, whatever was read
    since. *)
Theorem eviction_is_fifo (requests : list (Z * Q)) (wd0 : World)
    (pageNum : Z) (scale : Q) :
  pageCache (app wd0) = [] ->
  let wd := renderFullPages requests wd0 in
  let cache := pageCache (app wd) in
  let key := (pageNum, scale) in
  match JSMap.get cacheKey_eqb key cache with
  | Some cached => renderFullPage pageNum scale wd = (Return cached, wd)
  | None =>
      forall canvas wd',
        renderFullPage pageNum scale wd = (Return canvas, wd') ->
        if (5 <? JSMap.size cache)%nat then
          exists oldest rest,
            cache = oldest :: rest
            /\ pageCache (app wd') = rest ++ [(key, canvas)]
            /\ Forall (fun e => (Dom.canvasId (snd oldest)
                                 < Dom.canvasId (snd e))%nat)
                      (rest ++ [(key, canvas)])
        else pageCache (app wd') = cache ++ [(key, canvas)]
  end.
Proof.
  intros Hempty wd cache key.
  assert (Hchron : chronological wd).
  { apply renderFullPages_chronological. unfold chronological.
    rewrite Hempty. exact I. }
  assert (Hdoc : cacheNeedsDoc wd).
  { apply renderFullPages_cacheNeedsDoc. intros _. exact Hempty. }
  destruct (JSMap.get cacheKey_eqb key cache) as [cached|] eqn:Hget.
  - apply renderFullPage_hit; [|exact Hget].
    intros Hnone. apply Hdoc in Hnone. fold cache in Hnone.
    rewrite Hnone in Hget. discriminate.
  - intros canvas wd' Hrun.
    destruct (renderFullPage_stored pageNum scale wd wd' canvas Hget Hrun)
      as [Hid Hcache].
    fold key cache in Hcache. rewrite Hcache.
    rewrite (cacheStore_fresh key canvas cache Hget).
    destruct (Nat.ltb_spec 5 (JSMap.size cache)) as [Hbig | Hsmall];
      [|reflexivity].
    unfold chronological in Hchron. fold cache in Hchron.
    destruct cache as [|oldest rest]; [simpl in Hbig; lia|].
    exists oldest, rest. repeat split.
    change (cachedIds (oldest :: rest))
      with (Dom.canvasId (snd oldest) :: cachedIds rest) in Hchron.
    destruct Hchron as (Hlt & Hall & _).
    apply Forall_app. split.
    + unfold cachedIds in Hall. now rewrite Forall_map in Hall.
    + repeat constructor. cbn [snd]. lia.
Qed.

(** Pages 1 to 6 are cached, page 1 is read again, page 7 comes in: page
    1 goes, the most recently read one, and not page 2. *)
Lemma eviction_is_fifo_witness :
  let wd :=
    renderFullPages (Scenario.firstPages 6 ++ [(1, 2%Q)])
      Scenario.freshlyLoaded in
  let result := renderFullPage 7 2 wd in
  exists oldest rest canvas,
    fst result = Return canvas
    /\ pageCache (app wd) = oldest :: rest
    /\ fst oldest = (1, 2%Q)
    /\ pageCache (app (snd result)) = rest ++ [((7, 2%Q), canvas)].
Proof.
  intros wd result.
  assert (Hempty : pageCache (app Scenario.freshlyLoaded) = [])
    by (vm_compute; reflexivity).
  pose proof (eviction_is_fifo (Scenario.firstPages 6 ++ [(1, 2%Q)])
                Scenario.freshlyLoaded 7 2%Q Hempty) as H.
  cbv zeta in H. fold wd in H.
  assert (Hget : JSMap.get cacheKey_eqb (7, 2%Q) (pageCache (app wd))
                 = None) by (vm_compute; reflexivity).
  rewrite Hget in H.
  assert (Hfst : fst result = Return (Dom.mkCanvas 6 1600 1200))
    by (vm_compute; reflexivity).
  assert (Hrun : renderFullPage 7 2 wd
                 = (Return (Dom.mkCanvas 6 1600 1200), snd result)).
  { rewrite <- Hfst. apply surjective_pairing. }
  specialize (H _ _ Hrun).
  assert (Hsize : (5 <? JSMap.size (pageCache (app wd)))%nat = true)
    by (vm_compute; reflexivity).
  rewrite Hsize in H.
  destruct H as (oldest & rest & Hc & Hc' & _).
  exists oldest, rest, (Dom.mkCanvas 6 1600 1200).
  split; [exact Hfst | split; [exact Hc | split; [| exact Hc']]].
  assert (Hk : JSMap.firstKey (pageCache (app wd)) = Some (1, 2%Q))
    by (vm_compute; reflexivity).
  rewrite Hc in Hk. destruct oldest as [k c].
  cbn [JSMap.firstKey] in Hk. cbn [fst]. congruence.
Defined.
End CacheFacts.

(** ** Navigation *)

Module NavigationFacts.

Import PdfRenderer App Sync.

(** The render path writes the page cache and makes canvases, nothing
    else. *)
Lemma renderFullPage_frame (pageNum : Z) (scale : Q) (wd : World) :
  frame (snd (renderFullPage pageNum scale wd)) = frame wd.
Proof.
  destruct (CacheFacts.renderFullPage_outcome pageNum scale wd); reflexivity.
Qed.

Lemma renderAudienceSlide_frame (pageNum : Z) (wd : World) :
  frame (snd (renderAudienceSlide pageNum wd)) = frame wd.
Proof.
  unfold renderAudienceSlide.
  destruct (skipRender pageNum (app wd)); [reflexivity|].
  unfold bind.
  pose proof (renderFullPage_frame pageNum (scale (app wd)) wd) as H.
  destruct (renderFullPage pageNum (scale (app wd)) wd) as [[c|e] wd1];
    exact H.
Qed.

Lemma renderNotesArea_frame (pageNum : Z) (wd : World) :
  frame (snd (renderNotesArea pageNum wd)) = frame wd.
Proof.
  unfold renderNotesArea.
  destruct (skipRender pageNum (app wd)); [reflexivity|].
  unfold bind.
  pose proof (renderFullPage_frame pageNum (scale (app wd) * (3 # 2))%Q wd)
    as H.
  destruct (renderFullPage pageNum (scale (app wd) * (3 # 2))%Q wd)
    as [[c|e] wd1]; exact H.
Qed.

Lemma bind_frame {A B} (c : M A) (k : A -> M B) :
  (forall wd, frame (snd (c wd)) = frame wd) ->
  (forall a wd, frame (snd (k a wd)) = frame wd) ->
  forall wd, frame (snd (bind c k wd)) = frame wd.
Proof.
  intros Hc Hk wd. unfold bind. specialize (Hc wd).
  destruct (c wd) as [[a|e] wd1]; simpl in *.
  - now rewrite Hk.
  - exact Hc.
Qed.

Lemma renderCurrentPage_frame (wd : World) :
  frame (renderCurrentPage wd) = frame wd.
Proof.
  unfold renderCurrentPage, tryCatch.
  apply bind_frame; [apply renderAudienceSlide_frame|]. intros _ wd1.
  apply bind_frame; [apply renderNotesArea_frame|]. intros _ wd2.
  destruct (_ && _); [apply renderAudienceSlide_frame | reflexivity].
Qed.

Lemma frame_fields (wd wd' : World) :
  frame wd = frame wd' ->
  currentPage (app wd) = currentPage (app wd')
  /\ totalPages (app wd) = totalPages (app wd')
  /\ audienceAvailable (app wd) = audienceAvailable (app wd')
  /\ presenterPointerHidden wd = presenterPointerHidden wd'.
Proof.
  intros H.
  change (currentPage (app (frame wd)) = currentPage (app (frame wd'))
          /\ totalPages (app (frame wd)) = totalPages (app (frame wd'))
          /\ audienceAvailable (app (frame wd))
             = audienceAvailable (app (frame wd'))
          /\ presenterPointerHidden (frame wd)
             = presenterPointerHidden (frame wd')).
  now rewrite H.
Qed.

Section Navigation.
Variable session : string.

(** C5, as stated, fails in its second half: with no audience window
    handle, a page inside the range is taken as the current page and no
    message is posted. *)
Lemma navigate_without_window_posts_nothing :
  1 <= 2 <= totalPages (app Scenario.loadedWorld)
  /\ audienceWindow (app Scenario.loadedWorld) = None
  /\ currentPage
       (app (fst (navigateTo Scenario.session 2 Scenario.loadedWorld))) = 2
  /\ snd (navigateTo Scenario.session 2 Scenario.loadedWorld) = []
  /\ filter (fun m => String.eqb (type m) NAVIGATE)
       (snd (navigateTo Scenario.session 2 Scenario.loadedWorld)) = [].
Proof. vm_compute. repeat split; discriminate. Qed.

Lemma navigateTo_out_of_range (page : Z) (wd : World) :
  page < 1 \/ page > totalPages (app wd) ->
  navigateTo session page wd = (wd, []).
Proof.
  intros Hout. unfold navigateTo.
  destruct (Z.ltb_spec page 1); [reflexivity|].
  destruct (Z.gtb_spec page (totalPages (app wd))); [reflexivity | lia].
Qed.

Lemma navigateTo_in_range (page : Z) (wd : World) :
  1 <= page <= totalPages (app wd) ->
  currentPage (app (fst (navigateTo session page wd))) = page
  /\ presenterPointerHidden (fst (navigateTo session page wd)) = true
  /\ snd (navigateTo session page wd)
     = if audienceAvailable (app wd)
       then [pointerOff session; navigateMessage session page]
       else [].
Proof.
  intros Hin. unfold navigateTo.
  destruct (Z.ltb_spec page 1); [lia|].
  destruct (Z.gtb_spec page (totalPages (app wd))); [lia|].
  cbn [orb fst snd].
  set (wd2 := set_presenterPointerHidden true
                (with_app (set_currentPage page) wd)).
  destruct (frame_fields _ _ (renderCurrentPage_frame wd2))
    as (Hpage & _ & Havail & Hhidden).
  rewrite Hpage, Hhidden. repeat split.
  unfold sendPointerToAudience, sendNavigateToAudience, sendToAudience.
  rewrite Havail.
  change (audienceAvailable (app wd2)) with (audienceAvailable (app wd)).
  change (audienceAvailable (app (with_app (set_currentPage page) wd)))
    with (audienceAvailable (app wd)).
  destruct (audienceAvailable (app wd)); reflexivity.
Qed.

(** C5, amended.  For [page < 1] or [page > totalPages], [navigateTo]
    leaves the whole state as it is and posts nothing.  For a page from
    1 to [totalPages] it makes the page the current one and hides the
    presenter's pointer overlay; when the audience window handle is
    there and not closed it posts [POINTER] with [active: false] and
    then [NAVIGATE] with the page, and without a live handle it posts
    nothing. *)
Theorem navigateTo_spec (page : Z) (wd : World) :
  (page < 1 \/ page > totalPages (app wd) ->
   navigateTo session page wd = (wd, []))
  /\ (1 <= page <= totalPages (app wd) ->
      let result := navigateTo session page wd in
      currentPage (app (fst result)) = page
      /\ presenterPointerHidden (fst result) = true
      /\ snd result
         = if audienceAvailable (app wd)
           then [pointerOff session; navigateMessage session page]
           else []).
Proof.
  split.
  - apply navigateTo_out_of_range.
  - intros Hin. cbv zeta. now apply navigateTo_in_range.
Qed.

End Navigation.

(** The spec's walk through a ten-page document: page 11 is turned down;
    after page 10, page 0 leaves the current page at 10. *)
Example navigate_ten_pages :
  let wd := Scenario.presentingWorld in
  currentPage (app (fst (navigateTo Scenario.session 11 wd))) = 1
  /\ currentPage
       (app (fst (navigateTo Scenario.session 0
                    (fst (navigateTo Scenario.session 10 wd))))) = 10.
Proof. vm_compute. split; reflexivity. Qed.

(** Ten pages: page 11 is turned down, page 10 is announced. *)
Lemma navigateTo_spec_witness :
  navigateTo Scenario.session 11 Scenario.presentingWorld
  = (Scenario.presentingWorld, [])
  /\ snd (navigateTo Scenario.session 10 Scenario.presentingWorld)
     = [pointerOff Scenario.session; navigateMessage Scenario.session 10].
Proof.
  assert (Htotal : totalPages (app Scenario.presentingWorld) = 10)
    by (vm_compute; reflexivity).
  assert (Havail : audienceAvailable (app Scenario.presentingWorld) = true)
    by (vm_compute; reflexivity).
  destruct (navigateTo_spec Scenario.session 11 Scenario.presentingWorld)
    as [Hout _].
  destruct (navigateTo_spec Scenario.session 10 Scenario.presentingWorld)
    as [_ Hin].
  split.
  - apply Hout. right. rewrite Htotal. lia.
  - rewrite Htotal in Hin. destruct Hin as (_ & _ & Hmsgs); [lia|].
    rewrite Havail in Hmsgs. exact Hmsgs.
Defined.

End NavigationFacts.

(** ** Document loading *)

Module LoadFacts.

Import PdfRenderer App Sync.

(** A load that throws has written nothing, or the new bytes only. *)
Lemma loadPdfFromBuffer_failure (buffer : PdfJs.ArrayBuffer) (wd wd' : World)
    (e : string) :
  loadPdfFromBuffer buffer wd = (Throw e, wd') ->
  wd' = wd
  \/ wd' = with_app (set_pdfData (Some (PdfJs.slice0 buffer))) wd.
Proof.
  unfold loadPdfFromBuffer.
  destruct (pdfjsLib wd) as [lib|].
  - destruct (PdfJs.getDocument lib buffer); intros H.
    + discriminate H.
    + injection H as _ <-. now right.
  - intros H. injection H as _ <-. now left.
Qed.

Lemma loadPdfFromUrl_failure fetch (url : string) (wd wd' : World)
    (e : string) :
  loadPdfFromUrl fetch url wd = (Throw e, wd') ->
  wd' = wd
  \/ exists buffer,
       wd' = with_app (set_pdfUrl (Some url))
               (with_app (set_pdfData (Some (PdfJs.slice0 buffer))) wd).
Proof.
  unfold loadPdfFromUrl.
  destruct (pdfjsLib wd) as [lib|]; [|intros H; injection H as _ <-; now left].
  destruct (fetch url) as [response|]; [|intros H; injection H as _ <-; now left].
  destruct (negb (ok response)); [intros H; injection H as _ <-; now left|].
  destruct (arrayBuffer response) as [buffer|];
    [|intros H; injection H as _ <-; now left].
  destruct (PdfJs.getDocument lib buffer); intros H.
  - discriminate H.
  - injection H as _ <-. right. now exists buffer.
Qed.

(** The loads that fail before the bytes are in hand change nothing. *)
Lemma early_failures_change_nothing :
  let wd := Scenario.openWindow Scenario.startWorld in
  handleFileSelect (Some (mkFile "notes.txt" (Return Scenario.goodBytes)))
    Scenario.defaultForm wd = wd
  /\ handleUrlLoad Scenario.sampleFetch "https://example.org/missing.pdf"
       Scenario.defaultForm wd = wd
  /\ handleUrlLoad Scenario.sampleFetch "https://example.org/nowhere.pdf"
       Scenario.defaultForm wd = wd.
Proof. vm_compute. repeat split. Qed.

(** C6 at its failing inputs: on the start screen with nothing loaded, a
    file or URL whose bytes the engine rejects makes the load throw, yet
    [AppState.pdfData] (and [pdfUrl] for a URL) already hold the rejected
    input: both loaders store the bytes before they await the parse.  No
    document is set, and the next [HELLO] ships the rejected bytes to the
    audience in [PDF_DATA]. *)
Theorem failed_load_overwrites_pdfData :
  let wd := Scenario.openWindow Scenario.startWorld in
  let viaBuffer := loadPdfFromBuffer Scenario.badBytes wd in
  let viaUrl :=
    loadPdfFromUrl Scenario.sampleFetch "https://example.org/logo.gif" wd in
  let dropped :=
    handleFileSelect (Some (mkFile "logo.pdf" (Return Scenario.badBytes)))
      Scenario.defaultForm wd in
  pdfData (app wd) = None /\ pdfUrl (app wd) = None
  /\ threw (fst viaBuffer) = true
  /\ pdfData (app (snd viaBuffer)) = Some Scenario.badBytes
  /\ threw (fst viaUrl) = true
  /\ pdfData (app (snd viaUrl)) = Some Scenario.badBytes
  /\ pdfUrl (app (snd viaUrl)) = Some "https://example.org/logo.gif"
  /\ pdfData (app dropped) = Some Scenario.badBytes
  /\ pdfDoc (app dropped) = None
  /\ snd (fst (handleAudienceMessage Scenario.session
                 (helloEvent Scenario.session) true (app dropped)))
     = [stateMessage Scenario.session (app dropped);
        pdfDataMessage Scenario.session Scenario.badBytes (app dropped)].
Proof. vm_compute. repeat split. Qed.

End LoadFacts.

(** ** Pointer forwarding *)

Module PointerFacts.

Import App Sync.


Section Pointer.

Variable session : string.













End Pointer.


End PointerFacts.

(** ** Timer *)

Module TimerFacts.

Import Timer.

(** No timer call touches anything of [AppState] but the three timer
    fields. *)
Lemma perform_timer_only (a : Action) (wd : World) :
  exists ts start elapsed,
    app (perform a wd) = set_timer ts start elapsed (app wd).
Proof.
  assert (Hsame : exists ts start elapsed,
             app wd = set_timer ts start elapsed (app wd)).
  { exists (timerState (app wd)), (timerStartTime (app wd)),
      (timerElapsed (app wd)).
    destruct wd as [st ? ? ? ? ? ? ? ?]. now destruct st. }
  destruct a as [now | now | | now | now];
    unfold perform, toggleTimer, startTimer, pauseTimer, resetTimer,
      updateTimerDisplay;
    try destruct (timerState (app wd)); try exact Hsame;
    cbn [app set_timerUi with_app]; eauto.
Qed.

Lemma perform_wellFormed (a : Action) (wd : World) :
  timerWellFormed (app wd) -> timerWellFormed (app (perform a wd)).
Proof.
  unfold timerWellFormed. intros Hwf.
  destruct a as [now | now | | now | now];
    unfold perform, toggleTimer, startTimer, pauseTimer, resetTimer,
      updateTimerDisplay;
    try destruct (timerState (app wd)) eqn:Hts;
    cbn [app set_timerUi with_app set_timer timerState timerStartTime];
    try rewrite Hts; try (intros; discriminate); try exact Hwf;
    try (intros H; rewrite Hts in Hwf; exact (Hwf H)).
Qed.

Lemma performAll_wellFormed (l : list Action) (wd : World) :
  timerWellFormed (app wd) -> timerWellFormed (app (performAll l wd)).
Proof.
  unfold performAll. revert wd.
  induction l as [|a rest IH]; intros wd H; simpl; [exact H|].
  apply IH. now apply perform_wellFormed.
Qed.

(** C8.  [startTimer] from stopped sets the accumulator to zero and
    enters running; from paused it enters running and keeps the
    accumulator; [pauseTimer] from running stores the accumulator plus the
    time since the start and enters paused; [resetTimer] from any state
    gives stopped with elapsed zero; and while running the elapsed time
    is the accumulator plus now minus the start time, computed at each
    read: a tick of the interval writes the display and leaves the state
    as it is. *)
Theorem timer_state_machine (now : Z) (wd : World) :
  (timerState (app wd) = stopped ->
   timerState (app (startTimer now wd)) = running
   /\ timerElapsed (app (startTimer now wd)) = 0
   /\ timerStartTime (app (startTimer now wd)) = Some now
   /\ getElapsedTime now (app (startTimer now wd)) = 0)
  /\ (timerState (app wd) = paused ->
      timerState (app (startTimer now wd)) = running
      /\ timerElapsed (app (startTimer now wd)) = timerElapsed (app wd)
      /\ timerStartTime (app (startTimer now wd)) = Some now
      /\ getElapsedTime now (app (startTimer now wd))
         = timerElapsed (app wd))
  /\ (forall t0,
        timerState (app wd) = running ->
        timerStartTime (app wd) = Some t0 ->
        timerState (app (pauseTimer now wd)) = paused
        /\ timerElapsed (app (pauseTimer now wd))
           = timerElapsed (app wd) + (now - t0)
        /\ forall later,
             getElapsedTime later (app (pauseTimer now wd))
             = timerElapsed (app wd) + (now - t0))
  /\ (timerState (app (resetTimer wd)) = stopped
      /\ timerElapsed (app (resetTimer wd)) = 0
      /\ timerStartTime (app (resetTimer wd)) = None
      /\ forall t, getElapsedTime t (app (resetTimer wd)) = 0)
  /\ (forall t0,
        timerState (app wd) = running ->
        timerStartTime (app wd) = Some t0 ->
        getElapsedTime now (app wd) = timerElapsed (app wd) + (now - t0)
        /\ app (updateTimerDisplay now wd) = app wd).
Proof.
  split; [|split; [|split; [|split]]].
  - intros Hs. unfold startTimer. rewrite Hs.
    cbn. repeat split; lia.
  - intros Hs. unfold startTimer. rewrite Hs.
    cbn. repeat split; lia.
  - intros t0 Hs Ht0. unfold pauseTimer, getElapsedTime. rewrite Hs, Ht0.
    cbn. repeat split.
  - repeat split.
  - intros t0 Hs Ht0. unfold getElapsedTime. rewrite Hs, Ht0.
    split; reflexivity.
Qed.

(** The spec's scenarios on a simulated clock. *)
Example start_wait_pause :
  let wd := performAll [Start 5000; Tick 6000; Tick 7000; Pause 7000]
              Scenario.presentingWorld in
  timerState (app wd) = paused /\ getElapsedTime 9999 (app wd) = 2000.
Proof. vm_compute. split; reflexivity. Qed.

Example pause_then_start_resumes :
  let wd := performAll [Start 5000; Pause 7000; Start 10000]
              Scenario.presentingWorld in
  timerState (app wd) = running
  /\ getElapsedTime 10000 (app wd) = 2000
  /\ getElapsedTime 10500 (app wd) = 2500.
Proof. vm_compute. repeat split; reflexivity. Qed.

Lemma timer_state_machine_witness :
  let wd := startTimer 5000 Scenario.presentingWorld in
  timerState (app wd) = running
  /\ timerElapsed (app (pauseTimer 7000 wd)) = 0 + (7000 - 5000)
  /\ getElapsedTime 6200 (app wd) = 0 + (6200 - 5000)
  /\ timerElapsed (app (startTimer 9000 (pauseTimer 7000 wd)))
     = timerElapsed (app (pauseTimer 7000 wd)).
Proof.
  intros wd.
  destruct (timer_state_machine 5000 Scenario.presentingWorld)
    as ((Hrun & _) & _); [vm_compute; reflexivity|].
  destruct (timer_state_machine 7000 wd) as (_ & _ & Hpause & _).
  destruct (Hpause 5000) as (_ & Hel & _); try (vm_compute; reflexivity).
  destruct (timer_state_machine 6200 wd) as (_ & _ & _ & _ & Hlive).
  destruct (Hlive 5000) as (Hnow & _); try (vm_compute; reflexivity).
  destruct (timer_state_machine 9000 (pauseTimer 7000 wd))
    as (_ & (_ & Hresume & _) & _); [vm_compute; reflexivity|].
  split; [exact Hrun | split; [exact Hel | split; [exact Hnow |]]].
  exact Hresume.
Defined.

End TimerFacts.

(** ** Timer: accumulated time and display *)

Module TimerLaws.

Import Timer.

(** A value below one hundred is written with exactly two digits. *)
Lemma twoDigits_pad (v : Z) :
  0 <= v < 100 ->
  exists a b,
    padStart2 (toString v) = String a (String b EmptyString)
    /\ twoDigits (String a (String b EmptyString)) = Some v.
Proof.
  intros Hv.
  assert (Hall : forallb twoDigitsOk (seq 0 100) = true)
    by (vm_compute; reflexivity).
  rewrite forallb_forall in Hall.
  specialize (Hall (Z.to_nat v)).
  assert (Hin : In (Z.to_nat v) (seq 0 100)) by (apply in_seq; lia).
  specialize (Hall Hin). unfold twoDigitsOk in Hall.
  rewrite Z2Nat.id in Hall by lia.
  destruct (padStart2 (toString v)) as [|a [|b [|c rest]]];
    try discriminate Hall.
  exists a, b. split; [reflexivity|].
  destruct (twoDigits (String a (String b EmptyString))) as [x|];
    [|discriminate Hall].
  apply andb_true_iff in Hall. destruct Hall as [Hx _].
  apply Z.eqb_eq in Hx. now subst.
Qed.

(** X1.  For an elapsed time from 0 up to (not including) one hundred
    hours, [formatTime] writes eight characters [HH:MM:SS], and reading
    the three two-digit fields back gives the whole seconds elapsed: the
    text tells the seconds, and two times show the same text only when
    they are in the same second. *)
Theorem formatTime_reads_back (ms : Z) :
  0 <= ms < 360000000 ->
  String.length (formatTime ms) = 8%nat
  /\ parseClock (formatTime ms) = Some (ms / 1000).
Proof.
  intros Hms. unfold formatTime.
  set (ts := ms / 1000).
  assert (Hts : 0 <= ts < 360000) by (subst ts; Z.div_mod_to_equations; lia).
  rewrite !Z.rem_mod_nonneg by lia.
  destruct (twoDigits_pad (ts / 3600)) as (a1 & b1 & E1 & D1);
    [Z.div_mod_to_equations; lia|].
  destruct (twoDigits_pad (ts mod 3600 / 60)) as (a2 & b2 & E2 & D2);
    [Z.div_mod_to_equations; lia|].
  destruct (twoDigits_pad (ts mod 60)) as (a3 & b3 & E3 & D3);
    [Z.div_mod_to_equations; lia|].
  cbn [List.map join]. rewrite E1, E2, E3.
  split; [reflexivity|].
  unfold parseClock.
  cbn [String.append substring String.length Nat.eqb String.eqb Ascii.eqb
       Bool.eqb andb negb].
  try rewrite !Ascii.eqb_refl. cbn [andb negb].
  rewrite D1, D2, D3. f_equal.
  Z.div_mod_to_equations. lia.
Qed.

Lemma formatTime_reads_back_witness :
  formatTime 3725999 = "01:02:05"
  /\ parseClock (formatTime 3725999) = Some 3725.
Proof.
  destruct (formatTime_reads_back 3725999) as [_ H]; [lia|].
  split; [vm_compute; reflexivity | exact H].
Defined.

Lemma performAll_app (l1 l2 : list Action) (wd : World) :
  performAll (l1 ++ l2) wd = performAll l2 (performAll l1 wd).
Proof. unfold performAll. apply fold_left_app. Qed.

(** One interval, by the buttons or by the toggle. *)
Lemma one_interval (a b : Z) (wd : World) :
  timerState (app wd) <> running ->
  let wd' := pauseTimer b (startTimer a wd) in
  timerState (app wd') = paused
  /\ timerElapsed (app wd') = getElapsedTime 0 (app wd) + (b - a)
  /\ toggleTimer b (toggleTimer a wd) = wd'.
Proof.
  intros Hs. unfold toggleTimer, pauseTimer, startTimer, getElapsedTime.
  destruct (timerState (app wd)) eqn:E; [| contradiction |]; cbn;
    repeat split; lia.
Qed.

(** X2.  From a timer that is not running, starting and pausing over a
    list of intervals leaves as elapsed time what was on the timer before
    plus the lengths of the intervals (before: nothing when stopped, the
    stored value when paused); the time between a pause and the next start
    is not counted.  Clicking the toggle at the same instants gives the
    same state. *)
Theorem pause_resume_accumulates (intervals : list (Z * Z)) (wd : World)
    (t : Z) :
  timerState (app wd) <> running ->
  getElapsedTime t (app (performAll (startPauseCycles intervals) wd))
  = getElapsedTime t (app wd) + runningTime intervals
  /\ performAll (toggleCycles intervals) wd
     = performAll (startPauseCycles intervals) wd.
Proof.
  revert wd. induction intervals as [|[a b] rest IH]; intros wd Hs.
  - cbn. split; [lia | reflexivity].
  - destruct (one_interval a b wd Hs) as (Hp & He & Ht).
    change (startPauseCycles ((a, b) :: rest))
      with ([Start a; Pause b] ++ startPauseCycles rest).
    change (toggleCycles ((a, b) :: rest))
      with ([Toggle a; Toggle b] ++ toggleCycles rest).
    rewrite !performAll_app.
    change (performAll [Start a; Pause b] wd)
      with (pauseTimer b (startTimer a wd)).
    change (performAll [Toggle a; Toggle b] wd)
      with (toggleTimer b (toggleTimer a wd)).
    rewrite Ht.
    set (wd1 := pauseTimer b (startTimer a wd)) in *.
    assert (Hs1 : timerState (app wd1) <> running) by (rewrite Hp; discriminate).
    destruct (IH wd1 Hs1) as [IH1 IH2]. split; [|exact IH2].
    rewrite IH1. cbn [runningTime fold_right fst snd].
    fold (runningTime rest).
    assert (Hb : getElapsedTime t (app wd1)
                 = getElapsedTime t (app wd) + (b - a)).
    { unfold getElapsedTime at 1. rewrite Hp, He.
      unfold getElapsedTime. destruct (timerState (app wd)); try reflexivity.
      contradiction. }
    lia.
Qed.

Lemma pause_resume_accumulates_witness :
  getElapsedTime 99000
    (app (performAll (startPauseCycles [(1000, 3000); (10000, 14500)])
            Scenario.presentingWorld))
  = 0 + runningTime [(1000, 3000); (10000, 14500)].
Proof.
  destruct (pause_resume_accumulates [(1000, 3000); (10000, 14500)]
              Scenario.presentingWorld 99000) as [H _].
  - vm_compute. discriminate.
  - exact H.
Defined.

(** X3.  A second start does not restart a running timer, a second pause
    does not change what the first one stored, and reset followed by
    reset or by pause is reset: each holds for any state and any two clock
    readings. *)
Theorem timer_buttons_idempotent (t1 t2 : Z) (wd : World) :
  startTimer t2 (startTimer t1 wd) = startTimer t1 wd
  /\ pauseTimer t2 (pauseTimer t1 wd) = pauseTimer t1 wd
  /\ resetTimer (resetTimer wd) = resetTimer wd
  /\ pauseTimer t2 (resetTimer wd) = resetTimer wd.
Proof.
  unfold startTimer, pauseTimer, resetTimer.
  destruct (timerState (app wd)) eqn:E; cbn; rewrite ?E; repeat split.
Qed.

Lemma perform_intervalInSync (a : Action) (wd : World) :
  intervalInSync wd -> intervalInSync (perform a wd).
Proof.
  unfold intervalInSync. intros H.
  destruct a as [now | now | | now | now];
    unfold perform, toggleTimer, startTimer, pauseTimer, resetTimer,
      updateTimerDisplay;
    try destruct (timerState (app wd)) eqn:Hts;
    cbn; rewrite ?Hts; try reflexivity; try exact H.
Qed.

(** X4.  If the one-second interval is armed exactly when the timer
    runs, this is still so after any sequence of start, pause, reset,
    toggle and tick. *)
Theorem timer_interval_in_sync (actions : list Action) (wd : World) :
  intervalInSync wd -> intervalInSync (performAll actions wd).
Proof.
  unfold performAll. revert wd.
  induction actions as [|a rest IH]; intros wd H; simpl; [exact H|].
  apply IH. now apply perform_intervalInSync.
Qed.

Lemma timer_interval_in_sync_witness :
  intervalInSync
    (performAll [Start 10; Tick 1010; Toggle 2000; Start 2500; Reset;
                 Pause 3000; Toggle 4000]
       Scenario.startWorld).
Proof.
  apply timer_interval_in_sync. reflexivity.
Defined.

End TimerLaws.

(** ** Protocol between the two windows *)

Module ProtocolFacts.

Import Sync.

(** X5.  A message whose type is missing, empty, [ERROR] or anything else
    than [HELLO] leaves the presenter's state as it is, posts nothing and
    does not call [onConnect]. *)
Theorem other_messages_ignored (session : string) (event : MessageEvent)
    (onConnect : bool) (st : AppState) :
  match data event with
  | Some d => data_type d
  | None => None
  end <> Some HELLO ->
  handleAudienceMessage session event onConnect st = (st, [], false).
Proof.
  intros Hty. unfold handleAudienceMessage.
  destruct (match data event with
            | Some d => data_type d
            | None => None
            end) as [t|]; [|reflexivity].
  cbn [falsy_type orElse].
  destruct (String.eqb t ""); [reflexivity|].
  destruct (String.eqb_spec t HELLO) as [-> | _]; [now contradiction Hty|].
  reflexivity.
Qed.

Lemma other_messages_ignored_witness :
  handleAudienceMessage Scenario.session
    (mkMessageEvent
       (Some (mkMessageData (Some Scenario.session) (Some ERROR)
                (Some (ErrorPayload "render failed")))))
    true (app Scenario.presentingWorld)
  = (app Scenario.presentingWorld, [], false).
Proof.
  apply other_messages_ignored. cbn. discriminate.
Defined.

(** X6.  With a live audience window and a document loaded, what
    [sendStateToAudience], [sendPdfDataToAudience],
    [sendNavigateToAudience] and [sendModeToAudience] post is decoded by
    the audience's [handlePresenterMessage] into [onState], [onPdfData],
    [onNavigate] and [onMode], in that order, with the values of the
    presenter's state and of the calls; no run of the handler throws,
    whatever the audience's own session id. *)
Theorem presenter_messages_reach_callbacks (session cfg : string)
    (st : AppState) (page : Z) (mode : string)
    (buffer : PdfJs.ArrayBuffer) :
  audienceAvailable st = true ->
  pdfData st = Some buffer ->
  audienceReceives allCallbacks cfg
    (sendStateToAudience session st ++ sendPdfDataToAudience session st
     ++ sendNavigateToAudience session page st
     ++ sendModeToAudience session mode st)
  = [Return (Some (CallOnState
                     (Some (StatePayload (currentPage st) (totalPages st)
                              (location st) (split st) (displayMode st)))));
     Return (Some (CallOnPdfData (Some buffer) (Some (location st))
                     (Some (split st))));
     Return (Some (CallOnNavigate (Some page)));
     Return (Some (CallOnMode (Some mode)))].
Proof.
  intros Havail Hdata.
  unfold sendStateToAudience, sendPdfDataToAudience, sendNavigateToAudience,
    sendModeToAudience, sendToAudience.
  rewrite Hdata, Havail. reflexivity.
Qed.

Lemma presenter_messages_reach_callbacks_witness :
  let st := app Scenario.presentingWorld in
  audienceReceives allCallbacks "audience-own-id"
    (sendStateToAudience Scenario.session st
     ++ sendPdfDataToAudience Scenario.session st
     ++ sendNavigateToAudience Scenario.session 4 st
     ++ sendModeToAudience Scenario.session BLACK st)
  = [Return (Some (CallOnState
                     (Some (StatePayload 1 10 "right" (1 # 2) NORMAL))));
     Return (Some (CallOnPdfData (Some Scenario.goodBytes) (Some "right")
                     (Some (1 # 2)%Q)));
     Return (Some (CallOnNavigate (Some 4)));
     Return (Some (CallOnMode (Some BLACK)))].
Proof.
  intros st.
  apply (presenter_messages_reach_callbacks Scenario.session
           "audience-own-id" st 4 BLACK Scenario.goodBytes);
    vm_compute; reflexivity.
Defined.

(** X7.  The whole handshake: the audience posts [HELLO] through an
    opener that is not closed, with its own session id; the presenter,
    whose audience window is live, marks the audience connected and
    answers; the audience's handler then calls [onState] with the
    presenter's page, page count, location, split and mode, and, when a
    document is loaded, [onPdfData] with its bytes, location and split.
    The two session ids need not agree. *)
Theorem handshake_end_to_end (presenterSession audienceSession : string)
    (opener : Dom.Window) (onConnect : bool) (st : AppState) :
  Dom.closed opener = false ->
  audienceAvailable st = true ->
  let hello := sendHelloToPresenter audienceSession (Some opener) in
  let reply :=
    handleAudienceMessages presenterSession (List.map delivered hello)
      onConnect st in
  isAudienceConnected (fst reply) = true
  /\ audienceReceives allCallbacks audienceSession (snd reply)
     = Return (Some (CallOnState
                       (Some (StatePayload (currentPage st) (totalPages st)
                                (location st) (split st) (displayMode st)))))
       :: match pdfData st with
          | Some buffer =>
              [Return (Some (CallOnPdfData (Some buffer)
                               (Some (location st)) (Some (split st))))]
          | None => []
          end.
Proof.
  intros Hopen Havail. unfold sendHelloToPresenter. rewrite Hopen.
  cbn [List.map handleAudienceMessages delivered sessionId type payload].
  unfold handleAudienceMessage. cbn [data data_type falsy_type orElse].
  change (String.eqb HELLO "") with false. rewrite String.eqb_refl.
  cbv iota.
  unfold sendStateToAudience, sendPdfDataToAudience, sendToAudience.
  change (audienceAvailable (set_isAudienceConnected true st))
    with (audienceAvailable st).
  rewrite Havail.
  change (pdfData (set_isAudienceConnected true st)) with (pdfData st).
  destruct (pdfData st); split; reflexivity.
Qed.

Lemma handshake_end_to_end_witness :
  let st := app Scenario.presentingWorld in
  let hello := sendHelloToPresenter "audience-own-id"
                 (Some (Dom.mkWindow false)) in
  audienceReceives allCallbacks "audience-own-id"
    (snd (handleAudienceMessages Scenario.session
            (List.map delivered hello) true st))
  = [Return (Some (CallOnState
                     (Some (StatePayload 1 10 "right" (1 # 2) NORMAL))));
     Return (Some (CallOnPdfData (Some Scenario.goodBytes) (Some "right")
                     (Some (1 # 2)%Q)))].
Proof.
  intros st hello.
  destruct (handshake_end_to_end Scenario.session "audience-own-id"
              (Dom.mkWindow false) true st) as [_ H];
    [reflexivity | vm_compute; reflexivity | exact H].
Defined.

(** X8.  [handlePresenterMessage] throws exactly when the message has no
    payload, its type is [NAVIGATE], [MODE] or [PDF_DATA], and the
    callback for that type is set; a [STATE] without payload, an unknown
    type and a missing type never throw. *)
Theorem audience_handler_throws_only_without_payload
    (event : MessageEvent) (callbacks : Callbacks) (cfg : string) :
  threw (snd (handlePresenterMessage event callbacks cfg))
  = lacksPayload event
    && ((hasType event NAVIGATE && onNavigate callbacks)
        || (hasType event MODE && onMode callbacks)
        || (hasType event PDF_DATA && onPdfData callbacks)).
Proof.
  unfold handlePresenterMessage, hasType, lacksPayload. cbn [snd].
  destruct (data event) as [[sid [t|] pl]|]; cbn [data_type data_payload];
    [| destruct pl; reflexivity | reflexivity].
  destruct (String.eqb_spec t STATE) as [-> | _].
  { cbn. destruct (onState callbacks), pl; cbn;
      rewrite ?andb_false_r; reflexivity. }
  destruct (String.eqb_spec t NAVIGATE) as [-> | _].
  { cbn. destruct (onNavigate callbacks), pl; reflexivity. }
  destruct (String.eqb_spec t MODE) as [-> | _].
  { cbn. destruct (onMode callbacks), pl; reflexivity. }
  destruct (String.eqb_spec t PDF_DATA) as [-> | _].
  { cbn. destruct (onPdfData callbacks), pl; reflexivity. }
  cbn. destruct pl; reflexivity.
Qed.

(** X9.  [openAudienceWindow] writes the window handle and nothing else.
    After a blocked popup the connection query is false and the sends
    post nothing; after a successful open the query is the liveness of the
    new window together with the connected flag as it was, so a flag set
    by an earlier handshake counts for the new window before it has said
    [HELLO]. *)
Theorem reopened_window_keeps_flag (session : string) (st : AppState)
    (ty : string) (pl : Payload) (win : Dom.Window) :
  let blocked := fst (openAudienceWindow None st) in
  let opened := fst (openAudienceWindow (Some win) st) in
  isAudienceConnected_query blocked = false
  /\ sendToAudience session ty pl blocked = []
  /\ sendPdfDataToAudience session blocked = []
  /\ isAudienceConnected_query opened
     = negb (Dom.closed win) && isAudienceConnected st
  /\ set_audienceWindow (audienceWindow st) opened = st.
Proof.
  cbv zeta. unfold openAudienceWindow, sendPdfDataToAudience. cbn [fst].
  repeat split.
  - now destruct (pdfData (set_audienceWindow None st)).
  - now destruct st.
Qed.

End ProtocolFacts.

(** ** Rendering through the cache *)

Module RenderFacts.

Import PdfRenderer.

Lemma get_set_same (k : CacheKey) (c : Dom.Canvas) (m : JSMap.t) :
  JSMap.get cacheKey_eqb k (JSMap.set cacheKey_eqb k c m) = Some c.
Proof.
  induction m as [|[k' c'] m IH]; simpl.
  - now rewrite CacheFacts.cacheKey_eqb_refl.
  - destruct (cacheKey_eqb k' k) eqn:E; simpl; rewrite E; auto.
Qed.

Lemma get_cacheStore (k : CacheKey) (c : Dom.Canvas) (m : JSMap.t) :
  JSMap.get cacheKey_eqb k (cacheStore k c m) = Some c.
Proof. unfold cacheStore. apply get_set_same. Qed.

Lemma renderFullPage_caches (pageNum : Z) (scale : Q) (wd wd' : World)
    (canvas : Dom.Canvas) :
  renderFullPage pageNum scale wd = (Return canvas, wd') ->
  JSMap.get cacheKey_eqb (pageNum, scale) (pageCache (app wd'))
  = Some canvas
  /\ renderFullPage pageNum scale wd' = (Return canvas, wd').
Proof.
  unfold renderFullPage.
  destruct (pdfDoc (app wd)) as [doc|] eqn:Hdoc; [|discriminate].
  destruct (JSMap.get cacheKey_eqb (pageNum, scale) (pageCache (app wd)))
    as [cached|] eqn:Hget.
  - intros H. injection H as <- <-. rewrite Hdoc, Hget. auto.
  - destruct (PdfJs.getPage doc pageNum) as [page|e]; [|discriminate].
    destruct (PdfJs.renderError page) as [e|]; [discriminate|].
    intros H. injection H as <- <-.
    cbn [app with_app set_canvasesCreated pageCache set_pageCache pdfDoc].
    rewrite Hdoc, get_cacheStore. auto.
Qed.

(** X10.  When [renderFullPage] returns a canvas, the cache holds that
    canvas under the key of the call, and the same call made again
    returns the same canvas and changes nothing: no second
    rasterization. *)
Theorem rendered_page_is_cached (pageNum : Z) (scale : Q) (wd wd' : World)
    (canvas : Dom.Canvas) :
  renderFullPage pageNum scale wd = (Return canvas, wd') ->
  JSMap.get cacheKey_eqb (pageNum, scale) (pageCache (app wd'))
  = Some canvas
  /\ renderFullPage pageNum scale wd' = (Return canvas, wd').
Proof. apply renderFullPage_caches. Qed.

Lemma rendered_page_is_cached_witness :
  let first := renderFullPage 3 2 Scenario.freshlyLoaded in
  fst first = Return (Dom.mkCanvas 0 1600 1200)
  /\ renderFullPage 3 2 (snd first) = (Return (Dom.mkCanvas 0 1600 1200), snd first).
Proof.
  intros first.
  assert (Hfst : fst first = Return (Dom.mkCanvas 0 1600 1200))
    by (vm_compute; reflexivity).
  split; [exact Hfst|].
  apply (rendered_page_is_cached 3 2%Q Scenario.freshlyLoaded (snd first)).
  rewrite <- Hfst. apply surjective_pairing.
Defined.

(** X11.  When [renderFullPage] throws, [AppState] (the cache included)
    is as before, and the error is [No PDF loaded] with no document, or
    else the very error of the engine's [getPage] or of its [render]. *)
Theorem failed_render_keeps_state (pageNum : Z) (scale : Q) (wd wd' : World)
    (e : string) :
  renderFullPage pageNum scale wd = (Throw e, wd') ->
  app wd' = app wd
  /\ match pdfDoc (app wd) with
     | None => e = "No PDF loaded" /\ wd' = wd
     | Some doc =>
         PdfJs.getPage doc pageNum = Throw e
         \/ exists page,
              PdfJs.getPage doc pageNum = Return page
              /\ PdfJs.renderError page = Some e
     end.
Proof.
  unfold renderFullPage.
  destruct (pdfDoc (app wd)) as [doc|] eqn:Hdoc.
  - destruct (JSMap.get cacheKey_eqb (pageNum, scale) (pageCache (app wd)));
      [discriminate|].
    destruct (PdfJs.getPage doc pageNum) as [page|e'] eqn:Hpage.
    + destruct (PdfJs.renderError page) as [e'|] eqn:Herr; [|discriminate].
      intros H. injection H as <- <-. split; [reflexivity|].
      right. now exists page.
    + intros H. injection H as <- <-. split; [reflexivity | now left].
  - intros H. injection H as <- <-. auto.
Qed.

Lemma failed_render_keeps_state_witness :
  app (snd (renderFullPage 11 2 Scenario.loadedWorld))
  = app Scenario.loadedWorld.
Proof.
  assert (H : renderFullPage 11 2 Scenario.loadedWorld
              = (Throw "Invalid page request",
                 snd (renderFullPage 11 2 Scenario.loadedWorld)))
    by (vm_compute; reflexivity).
  exact (proj1 (failed_render_keeps_state _ _ _ _ _ H)).
Defined.

Lemma get_none_fresh (k : CacheKey) (m : @JSMap.t CacheKey Dom.Canvas) :
  JSMap.get cacheKey_eqb k m = None ->
  Forall (fun e => cacheKey_eqb (fst e) k = false) m.
Proof.
  induction m as [|[k' c'] m IH]; simpl; [constructor|].
  destruct (cacheKey_eqb k' k) eqn:E; [discriminate|].
  intros H. constructor; auto.
Qed.

Lemma distinctKeys_snoc (k : CacheKey) (c : Dom.Canvas) (m : JSMap.t) :
  distinctKeys m ->
  Forall (fun e => cacheKey_eqb (fst e) k = false) m ->
  distinctKeys (m ++ [(k, c)]).
Proof.
  induction m as [|[k' c'] m IH]; simpl.
  - intros _ _. split; [constructor | exact I].
  - intros [Hk' Hm] Hall. inversion Hall as [|? ? Hhead Htail]; subst.
    split; [|auto].
    apply Forall_app. split; [assumption | repeat constructor; assumption].
Qed.

Lemma distinctKeys_tl (m : JSMap.t) : distinctKeys m -> distinctKeys (tl m).
Proof. destruct m as [|[k c] m]; simpl; tauto. Qed.

Lemma renderFullPage_distinctKeys (pageNum : Z) (scale : Q) (wd : World) :
  distinctKeys (pageCache (app wd)) ->
  distinctKeys (pageCache (app (snd (renderFullPage pageNum scale wd)))).
Proof.
  intros H.
  destruct (CacheFacts.renderFullPage_outcome pageNum scale wd)
    as [c Hc|e|e|c Hdoc Hc Hid]; simpl; try assumption.
  rewrite CacheFacts.cacheStore_fresh by assumption.
  apply distinctKeys_snoc.
  - destruct (5 <? _)%nat; [now apply distinctKeys_tl | assumption].
  - apply get_none_fresh.
    destruct (5 <? _)%nat; [|assumption].
    now apply CacheFacts.get_tail_none.
Qed.

(** X12.  A cache without two entries of the same key stays so under any
    sequence of [renderFullPage] calls: a page at a scale is cached at
    most once. *)
Theorem cache_keys_stay_distinct (requests : list (Z * Q)) (wd : World) :
  distinctKeys (pageCache (app wd)) ->
  distinctKeys (pageCache (app (renderFullPages requests wd))).
Proof.
  revert wd. induction requests as [|[p s] rest IH]; intros wd H; simpl.
  - exact H.
  - apply IH. now apply renderFullPage_distinctKeys.
Qed.

Lemma cache_keys_stay_distinct_witness :
  distinctKeys
    (pageCache
       (app (renderFullPages
               [(1, 2%Q); (1, 3%Q); (1, 2%Q); (2, (4 # 2)%Q); (2, 2%Q)]
               Scenario.freshlyLoaded))).
Proof.
  apply cache_keys_stay_distinct. vm_compute. exact I.
Defined.

End RenderFacts.

(** ** Paging, keys and the home button *)

Module PagingFacts.

Import PdfRenderer App Sync.

(** What the render path leaves alone, field by field. *)
Lemma frame_app (wd wd' : World) :
  frame wd = frame wd' ->
  pdfDoc (app wd) = pdfDoc (app wd')
  /\ pdfData (app wd) = pdfData (app wd')
  /\ totalPages (app wd) = totalPages (app wd')
  /\ currentPage (app wd) = currentPage (app wd')
  /\ location (app wd) = location (app wd')
  /\ split (app wd) = split (app wd')
  /\ scale (app wd) = scale (app wd')
  /\ showNextPreview (app wd) = showNextPreview (app wd').
Proof.
  intros H.
  change (pdfDoc (app (frame wd)) = pdfDoc (app (frame wd'))
          /\ pdfData (app (frame wd)) = pdfData (app (frame wd'))
          /\ totalPages (app (frame wd)) = totalPages (app (frame wd'))
          /\ currentPage (app (frame wd)) = currentPage (app (frame wd'))
          /\ location (app (frame wd)) = location (app (frame wd'))
          /\ split (app (frame wd)) = split (app (frame wd'))
          /\ scale (app (frame wd)) = scale (app (frame wd'))
          /\ showNextPreview (app (frame wd))
             = showNextPreview (app (frame wd'))).
  now rewrite H.
Qed.

Lemma renderFullPage_succeeds (doc : PdfJs.PDFDocumentProxy) (pageNum : Z)
    (s : Q) (wd : World) :
  pdfDoc (app wd) = Some doc ->
  engineRenders doc pageNum ->
  exists canvas wd',
    renderFullPage pageNum s wd = (Return canvas, wd')
    /\ frame wd' = frame wd.
Proof.
  intros Hdoc (page & Hpage & Herr).
  pose proof (NavigationFacts.renderFullPage_frame pageNum s wd) as Hf.
  unfold renderFullPage in *. rewrite Hdoc in *.
  destruct (JSMap.get cacheKey_eqb (pageNum, s) (pageCache (app wd)))
    as [cached|].
  - now exists cached, wd.
  - rewrite Hpage, Herr in *. eexists _, _. split; [reflexivity | exact Hf].
Qed.

Lemma skipRender_false (doc : PdfJs.PDFDocumentProxy) (pageNum : Z)
    (st : AppState) :
  pdfDoc st = Some doc -> 1 <= pageNum <= totalPages st ->
  skipRender pageNum st = false.
Proof.
  intros Hdoc Hr. unfold skipRender. rewrite Hdoc.
  destruct (Z.ltb_spec pageNum 1); [lia|].
  destruct (Z.gtb_spec pageNum (totalPages st)); [lia | reflexivity].
Qed.

(** X13.  With the next-page preview on, a current page before the last
    one, and an engine that renders the current and the next page,
    [renderCurrentPage] leaves the next page's audience raster in the
    cache: the render that turning to the next page asks for first is a
    cache hit. *)
Theorem next_preview_warms_cache (doc : PdfJs.PDFDocumentProxy)
    (wd : World) :
  pdfDoc (app wd) = Some doc ->
  showNextPreview (app wd) = true ->
  1 <= currentPage (app wd) < totalPages (app wd) ->
  engineRenders doc (currentPage (app wd)) ->
  engineRenders doc (currentPage (app wd) + 1) ->
  let wd' := renderCurrentPage wd in
  exists canvas,
    JSMap.get cacheKey_eqb (currentPage (app wd) + 1, scale (app wd))
      (pageCache (app wd')) = Some canvas
    /\ renderFullPage (currentPage (app wd) + 1) (scale (app wd)) wd'
       = (Return canvas, wd').
Proof.
  intros Hdoc Hnext Hrange Hcur Hnxt wd'.
  set (page := currentPage (app wd)) in *.
  assert (Hrun : exists c3 wd2,
             renderFullPage (page + 1) (scale (app wd)) wd2
             = (Return c3, wd')).
  { subst wd'. unfold renderCurrentPage, tryCatch. fold page.
    unfold bind at 1. unfold renderAudienceSlide at 1.
    rewrite (skipRender_false doc) by (assumption || lia).
    unfold bind at 1.
    destruct (renderFullPage_succeeds doc page (scale (app wd)) wd Hdoc Hcur)
      as (c1 & wd1 & Hr1 & Hf1).
    rewrite Hr1.
    destruct (frame_app _ _ Hf1) as (Hd1 & _ & Ht1 & _ & _ & _ & Hs1 & Hn1).
    unfold bind at 1. unfold renderNotesArea.
    rewrite (skipRender_false doc) by (congruence || lia).
    unfold bind at 1.
    destruct (renderFullPage_succeeds doc page
                (scale (app wd1) * (3 # 2))%Q wd1)
      as (c2 & wd2 & Hr2 & Hf2); [congruence | assumption |].
    rewrite Hr2.
    destruct (frame_app _ _ Hf2) as (Hd2 & _ & Ht2 & _ & _ & _ & Hs2 & Hn2).
    assert (Hgo : showNextPreview (app wd2)
                  && (page <? totalPages (app wd2)) = true).
    { rewrite Hn2, Hn1, Hnext, Ht2, Ht1. apply Z.ltb_lt. lia. }
    rewrite Hgo. unfold renderAudienceSlide.
    rewrite (skipRender_false doc) by (congruence || lia).
    unfold bind.
    destruct (renderFullPage_succeeds doc (page + 1) (scale (app wd2)) wd2)
      as (c3 & wd3 & Hr3 & Hf3); [congruence | assumption |].
    rewrite Hr3. cbn [snd].
    assert (Hscale : scale (app wd2) = scale (app wd)) by congruence.
    rewrite Hscale in Hr3. now exists c3, wd2. }
  destruct Hrun as (c3 & wd2 & Hr3).
  exists c3. exact (RenderFacts.renderFullPage_caches _ _ _ _ _ Hr3).
Qed.

Lemma next_preview_warms_cache_witness :
  exists canvas,
    JSMap.get cacheKey_eqb (1 + 1, 2%Q)
      (pageCache (app (renderCurrentPage Scenario.freshlyLoaded)))
    = Some canvas.
Proof.
  destruct (next_preview_warms_cache Scenario.sampleDoc
              Scenario.freshlyLoaded) as (canvas & H & _).
  - reflexivity.
  - reflexivity.
  - vm_compute. split; [discriminate | reflexivity].
  - exists Scenario.samplePage. split; reflexivity.
  - exists Scenario.samplePage. split; reflexivity.
  - exists canvas. exact H.
Defined.

Section Paging.

Variable session : string.

Lemma navigateTo_app (page : Z) (wd : World) :
  totalPages (app (fst (navigateTo session page wd))) = totalPages (app wd)
  /\ (currentPage (app (fst (navigateTo session page wd)))
      = currentPage (app wd)
      \/ (1 <= page <= totalPages (app wd)
          /\ currentPage (app (fst (navigateTo session page wd))) = page)).
Proof.
  unfold navigateTo.
  destruct (Z.ltb_spec page 1); [split; [reflexivity | now left]|].
  destruct (Z.gtb_spec page (totalPages (app wd)));
    [split; [reflexivity | now left]|].
  cbn [orb fst].
  set (wd2 := set_presenterPointerHidden true
                (with_app (set_currentPage page) wd)).
  destruct (frame_app _ _ (NavigationFacts.renderCurrentPage_frame wd2))
    as (_ & _ & Ht & Hc & _).
  rewrite Ht, Hc. split; [reflexivity|]. right. split; [lia | reflexivity].
Qed.

Lemma navigateTo_pageInRange (page : Z) (wd : World) :
  pageInRange (app wd) ->
  pageInRange (app (fst (navigateTo session page wd))).
Proof.
  unfold pageInRange. intros H.
  destruct (navigateTo_app page wd) as [Ht [Hc | [Hr Hc]]];
    rewrite Ht, Hc; lia.
Qed.

Lemma dispatch_pageInRange (ev : UiEvent) (wd : World) :
  pageInRange (app wd) -> pageInRange (app (fst (dispatch session ev wd))).
Proof.
  intros H. destruct ev as [e r | now e r | e | | page]; cbn [dispatch].
  - unfold onMouseDown. destruct (negb _); [exact H|].
    destruct (getPointerCoords e r) as [[px py]|]; exact H.
  - unfold onMouseMove, sendPointerThrottled.
    destruct (negb _); [exact H|].
    destruct (getPointerCoords e r) as [[px py]|]; [|exact H].
    destruct (_ >=? _); exact H.
  - unfold onMouseUp. destruct (negb _); exact H.
  - unfold onMouseLeave. destruct (isPointerActive wd); exact H.
  - now apply navigateTo_pageInRange.
Qed.

Lemma onKeydown_pageInRange (e : KeyboardEvent) (wd : World) :
  pageInRange (app wd) -> pageInRange (app (fst (onKeydown session e wd))).
Proof.
  intros H. unfold onKeydown, nextPage, prevPage.
  repeat match goal with
         | |- context [if ?b then _ else _] => destruct b
         | |- context [match jumpValue e with _ => _ end] =>
             destruct (jumpValue e)
         end;
    try exact H; now apply navigateTo_pageInRange.
Qed.

(** X14.  Once the current page is one of the document's pages, it stays
    one under any sequence of mouse events and navigation requests, and
    under any sequence of key presses. *)
Theorem page_stays_in_range (events : list UiEvent)
    (keys : list KeyboardEvent) (wd : World) :
  pageInRange (app wd) ->
  pageInRange (app (fst (dispatchAll session events wd)))
  /\ pageInRange (app (fst (onKeydowns session keys wd))).
Proof.
  intros H. split.
  - revert wd H. induction events as [|ev rest IH]; intros wd H;
      [exact H|].
    cbn [dispatchAll].
    pose proof (dispatch_pageInRange ev wd H) as H1.
    destruct (dispatch session ev wd) as [wd1 out1].
    specialize (IH wd1 H1).
    destruct (dispatchAll session rest wd1) as [wd2 out2]. exact IH.
  - revert wd H. induction keys as [|e rest IH]; intros wd H; [exact H|].
    cbn [onKeydowns].
    pose proof (onKeydown_pageInRange e wd H) as H1.
    destruct (onKeydown session e wd) as [wd1 out1].
    specialize (IH wd1 H1).
    destruct (onKeydowns session rest wd1) as [wd2 out2]. exact IH.
Qed.

(** X15.  For a current page in range, the previous button is disabled by
    [updatePageDisplay] exactly when [prevPage] would be dropped (no
    change, no message), and otherwise [prevPage] goes one page back; the
    same for the next button and [nextPage]. *)
Theorem buttons_match_navigation (wd : World) :
  pageInRange (app wd) ->
  (if prevDisabled (updatePageDisplay (app wd))
   then prevPage session wd = (wd, [])
   else currentPage (app (fst (prevPage session wd)))
        = currentPage (app wd) - 1)
  /\ (if nextDisabled (updatePageDisplay (app wd))
      then nextPage session wd = (wd, [])
      else currentPage (app (fst (nextPage session wd)))
           = currentPage (app wd) + 1).
Proof.
  unfold pageInRange, updatePageDisplay, prevPage, nextPage.
  cbn [prevDisabled nextDisabled]. intros H. split.
  - destruct (Z.leb_spec (currentPage (app wd)) 1).
    + apply NavigationFacts.navigateTo_out_of_range. lia.
    + apply NavigationFacts.navigateTo_in_range. lia.
  - destruct (Z.geb_spec (currentPage (app wd)) (totalPages (app wd))).
    + apply NavigationFacts.navigateTo_out_of_range. lia.
    + apply NavigationFacts.navigateTo_in_range. lia.
Qed.

(** X16.  From a page in range that is not the last one, [nextPage] and
    then [prevPage] come back to the page they started from. *)
Theorem next_then_prev_returns (wd : World) :
  pageInRange (app wd) ->
  currentPage (app wd) < totalPages (app wd) ->
  currentPage (app (fst (prevPage session (fst (nextPage session wd)))))
  = currentPage (app wd).
Proof.
  unfold pageInRange, prevPage, nextPage. intros H Hlt.
  destruct (NavigationFacts.navigateTo_in_range session
              (currentPage (app wd) + 1) wd) as (Hc & _); [lia|].
  destruct (navigateTo_app (currentPage (app wd) + 1) wd) as [Ht _].
  set (wd1 := fst (navigateTo session (currentPage (app wd) + 1) wd)) in *.
  destruct (NavigationFacts.navigateTo_in_range session
              (currentPage (app wd1) - 1) wd1) as (Hc' & _); [lia|].
  rewrite Hc'. lia.
Qed.

(** X17.  With a document of at least one page.  In an input, Enter in
    the jump input holding a page number navigates to it: a number in
    range becomes the current page, with the messages of [navigateTo]
    posted, and a number out of range changes nothing; any other key, any
    other input and an unreadable number change nothing and post nothing.
    Outside inputs, Home goes to page 1 and End to the last page. *)
Theorem keyboard_navigation (e : KeyboardEvent) (wd : World) :
  1 <= totalPages (app wd) ->
  (targetTagName e = "INPUT" ->
   (forall page,
       key e = "Enter" -> targetIsJumpInput e = true ->
       jumpValue e = Some page ->
       (1 <= page <= totalPages (app wd) ->
        currentPage (app (fst (onKeydown session e wd))) = page
        /\ snd (onKeydown session e wd)
           = if audienceAvailable (app wd)
             then [pointerOff session; navigateMessage session page]
             else [])
       /\ (page < 1 \/ totalPages (app wd) < page ->
           onKeydown session e wd = (wd, [])))
   /\ (key e <> "Enter" \/ targetIsJumpInput e = false
       \/ jumpValue e = None ->
       onKeydown session e wd = (wd, [])))
  /\ (targetTagName e <> "INPUT" ->
      (code e = "Home" ->
       currentPage (app (fst (onKeydown session e wd))) = 1)
      /\ (code e = "End" ->
          currentPage (app (fst (onKeydown session e wd)))
          = totalPages (app wd))).
Proof.
  intros Htotal. split.
  - intros Hin. unfold onKeydown. rewrite Hin.
    cbn [String.eqb Ascii.eqb Bool.eqb]. split.
    + intros page Hk Hj Hv. rewrite Hk, Hj, Hv.
      cbn [String.eqb Ascii.eqb Bool.eqb andb]. split.
      * intros Hr.
        destruct (NavigationFacts.navigateTo_in_range session page wd Hr)
          as (Hc & _ & Hout).
        split; [exact Hc | exact Hout].
      * intros Hr. apply NavigationFacts.navigateTo_out_of_range. lia.
    + intros [Hk | [Hj | Hv]].
      * destruct (String.eqb_spec (key e) "Enter"); [contradiction|].
        reflexivity.
      * rewrite Hj, andb_false_r. reflexivity.
      * rewrite Hv. destruct (_ && _); reflexivity.
  - intros Hout. unfold onKeydown.
    destruct (String.eqb_spec (targetTagName e) "INPUT");
      [contradiction|].
    split; intros Hcode; rewrite Hcode; cbn.
    + apply NavigationFacts.navigateTo_in_range. lia.
    + apply NavigationFacts.navigateTo_in_range. lia.
Qed.

(** X18.  After the confirmed home button every navigation request is
    dropped, the page cache is empty and no document bytes are sent, while
    the audience window, the connected flag, the timer state and its
    interval are as they were. *)
Theorem home_closes_presentation (wd : World) (page : Z) :
  let home := goHome true wd in
  navigateTo session page home = (home, [])
  /\ nextPage session home = (home, [])
  /\ prevPage session home = (home, [])
  /\ pageCache (app home) = []
  /\ sendPdfDataToAudience session (app home) = []
  /\ audienceWindow (app home) = audienceWindow (app wd)
  /\ isAudienceConnected (app home) = isAudienceConnected (app wd)
  /\ timerState (app home) = timerState (app wd)
  /\ timerInterval home = timerInterval wd.
Proof.
  cbv zeta.
  assert (Hnav : forall p, navigateTo session p (goHome true wd)
                           = (goHome true wd, [])).
  { intros p. apply NavigationFacts.navigateTo_out_of_range.
    cbn. lia. }
  repeat split; try apply Hnav.
Qed.

End Paging.

Lemma presenting_in_range : pageInRange (app Scenario.presentingWorld).
Proof. unfold pageInRange. vm_compute. split; discriminate. Qed.

Lemma page_stays_in_range_witness :
  pageInRange
    (app (fst (dispatchAll Scenario.session
                 [Navigate 3; MouseDown Scenario.moveInside
                                Scenario.previewRect;
                  Navigate 99; MouseLeave; Navigate 0; Navigate 10]
                 Scenario.presentingWorld)))
  /\ pageInRange
       (app (fst (onKeydowns Scenario.session
                    [mkKeyboardEvent "BODY" false "End" "End" None;
                     mkKeyboardEvent "BODY" false " " "Space" None;
                     mkKeyboardEvent "INPUT" true "Enter" "Enter" (Some 42)]
                    Scenario.presentingWorld))).
Proof.
  apply page_stays_in_range. exact presenting_in_range.
Defined.

Lemma buttons_match_navigation_witness :
  prevPage Scenario.session Scenario.presentingWorld
  = (Scenario.presentingWorld, [])
  /\ currentPage (app (fst (nextPage Scenario.session
                              Scenario.presentingWorld)))
     = currentPage (app Scenario.presentingWorld) + 1.
Proof.
  destruct (buttons_match_navigation Scenario.session
              Scenario.presentingWorld presenting_in_range) as [Hp Hn].
  assert (Hprev : prevDisabled
                    (updatePageDisplay (app Scenario.presentingWorld))
                  = true) by (vm_compute; reflexivity).
  assert (Hnext : nextDisabled
                    (updatePageDisplay (app Scenario.presentingWorld))
                  = false) by (vm_compute; reflexivity).
  rewrite Hprev in Hp. rewrite Hnext in Hn.
  split; [exact Hp | exact Hn].
Defined.

Lemma next_then_prev_returns_witness :
  currentPage
    (app (fst (prevPage Scenario.session
                 (fst (nextPage Scenario.session
                         Scenario.presentingWorld)))))
  = currentPage (app Scenario.presentingWorld).
Proof.
  apply next_then_prev_returns.
  - exact presenting_in_range.
  - vm_compute. reflexivity.
Defined.

Lemma keyboard_navigation_witness :
  currentPage
    (app (fst (onKeydown Scenario.session
                 (mkKeyboardEvent "BODY" false "End" "End" None)
                 Scenario.presentingWorld)))
  = totalPages (app Scenario.presentingWorld)
  /\ onKeydown Scenario.session
       (mkKeyboardEvent "INPUT" false "ArrowRight" "ArrowRight" None)
       Scenario.presentingWorld
     = (Scenario.presentingWorld, [])
  /\ (let enter := mkKeyboardEvent "INPUT" true "Enter" "Enter" (Some 4) in
      currentPage
        (app (fst (onKeydown Scenario.session enter
                     Scenario.presentingWorld))) = 4
      /\ snd (onKeydown Scenario.session enter Scenario.presentingWorld)
         = [pointerOff Scenario.session;
            navigateMessage Scenario.session 4])
  /\ onKeydown Scenario.session
       (mkKeyboardEvent "INPUT" true "Enter" "Enter" (Some 42))
       Scenario.presentingWorld
     = (Scenario.presentingWorld, []).
Proof.
  assert (Htotal : 1 <= totalPages (app Scenario.presentingWorld))
    by (vm_compute; discriminate).
  assert (Hlive : audienceAvailable (app Scenario.presentingWorld) = true)
    by (vm_compute; reflexivity).
  destruct (keyboard_navigation Scenario.session
              (mkKeyboardEvent "BODY" false "End" "End" None)
              Scenario.presentingWorld Htotal) as [_ Hkeys].
  destruct (keyboard_navigation Scenario.session
              (mkKeyboardEvent "INPUT" false "ArrowRight" "ArrowRight" None)
              Scenario.presentingWorld Htotal) as [Hinput _].
  destruct (keyboard_navigation Scenario.session
              (mkKeyboardEvent "INPUT" true "Enter" "Enter" (Some 4))
              Scenario.presentingWorld Htotal) as [Henter _].
  destruct (keyboard_navigation Scenario.session
              (mkKeyboardEvent "INPUT" true "Enter" "Enter" (Some 42))
              Scenario.presentingWorld Htotal) as [Hfar _].
  split; [| split; [| split]].
  - apply Hkeys; [discriminate | reflexivity].
  - destruct (Hinput eq_refl) as [_ Hother]. apply Hother.
    left. discriminate.
  - destruct (Henter eq_refl) as [Hjump _].
    destruct (Hjump 4 eq_refl eq_refl eq_refl) as [Hgo _].
    assert (Hr : 1 <= 4 <= totalPages (app Scenario.presentingWorld))
      by (vm_compute; split; discriminate).
    destruct (Hgo Hr) as [Hc Hout]. rewrite Hlive in Hout.
    cbv zeta. split; [exact Hc | exact Hout].
  - destruct (Hfar eq_refl) as [Hjump _].
    destruct (Hjump 42 eq_refl eq_refl eq_refl) as [_ Hdrop].
    apply Hdrop. right. vm_compute. reflexivity.
Defined.

End PagingFacts.

(** ** Regions, canvas sizes and pointer coordinates *)

Module LayoutFacts.

Import PdfRenderer App.
Import ConfigFacts.

Local Open Scope Q_scope.


Lemma aspect_positive (r : Rect) :
  0 < w r -> 0 < h r -> 0 < w r / h r.
Proof.
  intros Hw Hh. apply Qlt_shift_div_l; [assumption|]. lra.
Qed.

(** X20.  For a notes region of positive width and height and a container
    of positive size (the defaults 800 by 600 standing in for a missing or
    zero size), the CSS size [renderNotesArea] gives the canvas lies
    within the container, has the aspect ratio of the region, and fills
    the container's width or its height. *)
Theorem notes_fit_within_container (region : Rect)
    (containerWidth containerHeight : option Q) (dpr : Q) :
  0 < w region -> 0 < h region ->
  0 < numberOr containerWidth 800 -> 0 < numberOr containerHeight 600 ->
  let size := notesCanvasSize region containerWidth containerHeight dpr in
  styleWidth size <= numberOr containerWidth 800
  /\ styleHeight size <= numberOr containerHeight 600
  /\ styleWidth size * h region == styleHeight size * w region
  /\ (styleWidth size == numberOr containerWidth 800
      \/ styleHeight size == numberOr containerHeight 600).
Proof.
  intros Hw Hh Hmw Hmh. unfold notesCanvasSize.
  set (mw := numberOr containerWidth 800) in *.
  set (mh := numberOr containerHeight 600) in *.
  pose proof (aspect_positive region Hw Hh) as Ha.
  set (a := w region / h region) in *.
  assert (Hah : a * h region == w region).
  { subst a. field. lra. }
  assert (Hda : mw / a * a == mw).
  { field. lra. }
  clearbody a.
  destruct (QltbP mh (mw / a)) as [Hover | Hfit];
    cbn [styleWidth styleHeight].
  - repeat split.
    + rewrite <- Hda. apply Qmult_le_compat_r; lra.
    + lra.
    + rewrite <- Hah. ring.
    + right. reflexivity.
  - repeat split.
    + lra.
    + lra.
    + rewrite <- Hah. field. lra.
    + left. reflexivity.
Qed.

Lemma notes_fit_within_container_witness :
  let size :=
    notesCanvasSize (mkRect 1200 0 1200 1800) (Some 900) (Some 600) 2 in
  styleWidth size <= 900 /\ styleHeight size <= 600
  /\ styleHeight size == 600.
Proof.
  intros size.
  destruct (notes_fit_within_container (mkRect 1200 0 1200 1800)
              (Some 900) (Some 600) 2) as (Hw & Hh & _ & _);
    try reflexivity.
  split; [exact Hw | split; [exact Hh | reflexivity]].
Defined.

(** X21.  For an audience region of positive width and height, the CSS
    size [renderAudienceSlide] gives the canvas has the parent's width
    (400 when missing or zero) and the aspect ratio of the region. *)
Theorem audience_fits_width (region : Rect) (parentWidth : option Q)
    (dpr : Q) :
  0 < w region -> 0 < h region ->
  let size := audienceCanvasSize region parentWidth dpr in
  styleWidth size = numberOr parentWidth 400
  /\ styleWidth size * h region == styleHeight size * w region.
Proof.
  intros Hw Hh. unfold audienceCanvasSize. cbn [styleWidth styleHeight].
  split; [reflexivity|]. field. split; lra.
Qed.

Lemma audience_fits_width_witness :
  let size := audienceCanvasSize (mkRect 0 0 800 1200) None 2 in
  styleWidth size = 400 /\ styleWidth size * 1200 == styleHeight size * 800.
Proof.
  apply (audience_fits_width (mkRect 0 0 800 1200) None 2); reflexivity.
Defined.

(** X22.  For a preview canvas box of positive width and height:
    [getPointerCoords] gives coordinates exactly when the mouse is on the
    box, edges included; they lie between 0 and 1, and the place
    [updatePresenterPointer] computes from them, relative to the wrapper,
    is the place of the mouse. *)
Theorem pointer_coordinates (e : MouseEvent) (canvasRect wrapperRect : DOMRect) :
  0 < rectWidth canvasRect -> 0 < rectHeight canvasRect ->
  match getPointerCoords e canvasRect with
  | Some (px, py) =>
      0 <= px <= 1 /\ 0 <= py <= 1
      /\ left canvasRect <= clientX e <= left canvasRect + rectWidth canvasRect
      /\ top canvasRect <= clientY e <= top canvasRect + rectHeight canvasRect
      /\ fst (pointerPosition px py canvasRect wrapperRect)
         == clientX e - left wrapperRect
      /\ snd (pointerPosition px py canvasRect wrapperRect)
         == clientY e - top wrapperRect
  | None =>
      ~ (left canvasRect <= clientX e <= left canvasRect + rectWidth canvasRect
         /\ top canvasRect <= clientY e
            <= top canvasRect + rectHeight canvasRect)
  end.
Proof.
  intros Hw Hh. unfold getPointerCoords, pointerPosition.
  set (px := (clientX e - left canvasRect) / rectWidth canvasRect).
  set (py := (clientY e - top canvasRect) / rectHeight canvasRect).
  assert (Hpx : px * rectWidth canvasRect == clientX e - left canvasRect).
  { subst px. field. lra. }
  assert (Hpy : py * rectHeight canvasRect == clientY e - top canvasRect).
  { subst py. field. lra. }
  assert (Hx0 : 0 <= px <-> left canvasRect <= clientX e).
  { split; intros H.
    - assert (0 <= px * rectWidth canvasRect)
        by (apply Qmult_le_0_compat; lra). lra.
    - subst px. apply Qle_shift_div_l; lra. }
  assert (Hx1 : px <= 1
                <-> clientX e <= left canvasRect + rectWidth canvasRect).
  { split; intros H.
    - assert (px * rectWidth canvasRect <= 1 * rectWidth canvasRect)
        by (apply Qmult_le_compat_r; lra). lra.
    - subst px. apply Qle_shift_div_r; lra. }
  assert (Hy0 : 0 <= py <-> top canvasRect <= clientY e).
  { split; intros H.
    - assert (0 <= py * rectHeight canvasRect)
        by (apply Qmult_le_0_compat; lra). lra.
    - subst py. apply Qle_shift_div_l; lra. }
  assert (Hy1 : py <= 1
                <-> clientY e <= top canvasRect + rectHeight canvasRect).
  { split; intros H.
    - assert (py * rectHeight canvasRect <= 1 * rectHeight canvasRect)
        by (apply Qmult_le_compat_r; lra). lra.
    - subst py. apply Qle_shift_div_r; lra. }
  destruct (QltbP px 0); [cbn [orb]; intros [[? ?] _]; apply Hx0 in H; lra|].
  destruct (QltbP 1 px); [cbn [orb]; intros [[? ?] _]; apply Hx1 in H0; lra|].
  destruct (QltbP py 0); [cbn [orb]; intros [_ [? ?]]; apply Hy0 in H; lra|].
  destruct (QltbP 1 py); [cbn [orb]; intros [_ [? ?]]; apply Hy1 in H0; lra|].
  cbn [orb fst snd].
  assert (0 <= px) by lra. assert (px <= 1) by lra.
  assert (0 <= py) by lra. assert (py <= 1) by lra.
  repeat split; try assumption;
    try (apply Hx0; assumption); try (apply Hx1; assumption);
    try (apply Hy0; assumption); try (apply Hy1; assumption).
  - rewrite Hpx. ring.
  - rewrite Hpy. ring.
Qed.

Lemma pointer_coordinates_witness :
  getPointerCoords (mkMouseEvent 0 150 90) (mkDOMRect 50 40 400 300)
  = Some ((150 - 50) / 400, (90 - 40) / 300)
  /\ fst (pointerPosition ((150 - 50) / 400) ((90 - 40) / 300)
            (mkDOMRect 50 40 400 300) (mkDOMRect 30 20 440 340))
     == 150 - 30.
Proof.
  pose proof (pointer_coordinates (mkMouseEvent 0 150 90)
                (mkDOMRect 50 40 400 300) (mkDOMRect 30 20 440 340)
                eq_refl eq_refl) as H.
  change (getPointerCoords (mkMouseEvent 0 150 90)
            (mkDOMRect 50 40 400 300))
    with (Some ((150 - 50) / 400, (90 - 40) / 300)) in H.
  destruct H as (_ & _ & _ & _ & Hx & _).
  split; [reflexivity | exact Hx].
Defined.

End LayoutFacts.

(** ** Start-up and loading *)

Module StartupFacts.

Import PdfRenderer App Sync.

(** X23.  When the page has no PDF.js library, [initPdfJs] returns false
    and leaves [AppState] alone; afterwards both loaders throw
    [PDF.js not initialized] without writing anything, and a dropped file
    or a URL leaves the whole state as it is. *)
Theorem missing_library_blocks_loading
    (fetch : string -> completion Response) (isFileProtocol : bool)
    (wd : World) (buffer : PdfJs.ArrayBuffer) (url : string)
    (file : option File) (form : StartForm) :
  let init := initPdfJs None isFileProtocol wd in
  let wd1 := snd (fst init) in
  fst (fst init) = false
  /\ app wd1 = app wd
  /\ loadPdfFromBuffer buffer wd1 = (Throw "PDF.js not initialized", wd1)
  /\ loadPdfFromUrl fetch url wd1 = (Throw "PDF.js not initialized", wd1)
  /\ handleFileSelect file form wd1 = wd1
  /\ handleUrlLoad fetch url form wd1 = wd1.
Proof.
  cbv zeta. cbn [initPdfJs fst snd].
  repeat split.
  - unfold handleFileSelect. destruct file as [f|]; [|reflexivity].
    destruct (negb _); [reflexivity|].
    unfold tryCatch. destruct (fileBytes f); reflexivity.
  - unfold handleUrlLoad. destruct (String.eqb url ""); reflexivity.
Qed.

(** X24.  With the library there and a fetch that answers ok with some
    bytes, [loadPdfFromUrl] is [loadPdfFromBuffer] on those bytes, with
    the URL recorded in [pdfUrl], whether the parse succeeds or throws;
    [loadPdfFromBuffer] itself never writes [pdfUrl], so a URL recorded
    earlier stays after a load from a file. *)
Theorem url_load_is_buffer_load (fetch : string -> completion Response)
    (url : string) (response : Response) (buffer : PdfJs.ArrayBuffer)
    (wd : World) :
  pdfjsLib wd <> None ->
  fetch url = Return response ->
  ok response = true ->
  arrayBuffer response = Return buffer ->
  loadPdfFromUrl fetch url wd
  = (fst (loadPdfFromBuffer buffer wd),
     with_app (set_pdfUrl (Some url)) (snd (loadPdfFromBuffer buffer wd)))
  /\ pdfUrl (app (snd (loadPdfFromBuffer buffer wd))) = pdfUrl (app wd).
Proof.
  intros Hlib Hfetch Hok Hbuf. unfold loadPdfFromUrl, loadPdfFromBuffer.
  destruct (pdfjsLib wd) as [lib|]; [|contradiction].
  rewrite Hfetch, Hok, Hbuf. cbn [negb].
  destruct (PdfJs.getDocument lib buffer); split; reflexivity.
Qed.

Lemma url_load_is_buffer_load_witness :
  loadPdfFromUrl Scenario.sampleFetch "https://example.org/talk.pdf"
    Scenario.startWorld
  = (fst (loadPdfFromBuffer Scenario.goodBytes Scenario.startWorld),
     with_app (set_pdfUrl (Some "https://example.org/talk.pdf"))
       (snd (loadPdfFromBuffer Scenario.goodBytes Scenario.startWorld))).
Proof.
  apply (url_load_is_buffer_load Scenario.sampleFetch
           "https://example.org/talk.pdf"
           (mkResponse true 200 "OK" (Return Scenario.goodBytes))
           Scenario.goodBytes Scenario.startWorld);
    try reflexivity.
  discriminate.
Defined.

Lemma cachedSince_renderFullPage (n0 : nat) (pageNum : Z) (s : Q)
    (wd : World) :
  cachedSince n0 wd -> cachedSince n0 (snd (renderFullPage pageNum s wd)).
Proof.
  unfold cachedSince. intros [Hn Hall].
  destruct (CacheFacts.renderFullPage_outcome pageNum s wd)
    as [c Hc|e|e|c Hdoc Hc Hid]; cbn [snd]; try (split; assumption).
  - split; [cbn; lia | exact Hall].
  - split; [cbn; lia|].
    cbn [app with_app set_canvasesCreated pageCache set_pageCache].
    rewrite CacheFacts.cacheStore_fresh by assumption.
    rewrite CacheFacts.cachedIds_app. apply Forall_app. split.
    + destruct (5 <? _)%nat; [|exact Hall].
      rewrite CacheFacts.cachedIds_tl.
      destruct (cachedIds (pageCache (app wd))); [constructor|].
      now inversion Hall.
    + repeat constructor. cbn. lia.
Qed.

Lemma bind_preserves {A B} (P : World -> Prop) (c : M A) (k : A -> M B) :
  (forall wd, P wd -> P (snd (c wd))) ->
  (forall a wd, P wd -> P (snd (k a wd))) ->
  forall wd, P wd -> P (snd (bind c k wd)).
Proof.
  intros Hc Hk wd H. unfold bind. specialize (Hc wd H).
  destruct (c wd) as [[a|e] wd1]; cbn [snd] in *; auto.
Qed.

Lemma cachedSince_renderCurrentPage (n0 : nat) (wd : World) :
  cachedSince n0 wd -> cachedSince n0 (renderCurrentPage wd).
Proof.
  assert (Haud : forall p wd0, cachedSince n0 wd0 ->
                   cachedSince n0 (snd (renderAudienceSlide p wd0))).
  { intros p wd0 H. unfold renderAudienceSlide.
    destruct (skipRender p (app wd0)); [exact H|].
    apply (bind_preserves (cachedSince n0)); auto.
    intros. now apply cachedSince_renderFullPage. }
  assert (Hnotes : forall p wd0, cachedSince n0 wd0 ->
                     cachedSince n0 (snd (renderNotesArea p wd0))).
  { intros p wd0 H. unfold renderNotesArea.
    destruct (skipRender p (app wd0)); [exact H|].
    apply (bind_preserves (cachedSince n0)); auto.
    intros. now apply cachedSince_renderFullPage. }
  unfold renderCurrentPage, tryCatch.
  apply (bind_preserves (cachedSince n0)); [apply Haud|].
  intros _. apply (bind_preserves (cachedSince n0)); [apply Hnotes|].
  intros _ wd2 H. destruct (_ && _); [now apply Haud | exact H].
Qed.

(** X25.  A dropped file whose lower-cased name ends in [.pdf], whose
    bytes can be read and are accepted by the engine, leaves the parsed
    document, its bytes and page count in the state, page 1 as the
    current page, and the form's settings, with a split and a scale that
    are never 0 (0 and unreadable inputs give 0.5 and 1); every canvas in
    the cache afterwards was created after the load began, none of them
    for the document shown before. *)
Theorem file_load_replaces_document (lib : PdfJs.Library) (f : File)
    (buffer : PdfJs.ArrayBuffer) (doc : PdfJs.PDFDocumentProxy)
    (form : StartForm) (wd : World) :
  pdfjsLib wd = Some lib ->
  endsWith (toLowerCase (name f)) ".pdf" = true ->
  fileBytes f = Return buffer ->
  PdfJs.getDocument lib buffer = Return doc ->
  let wd' := handleFileSelect (Some f) form wd in
  pdfDoc (app wd') = Some doc
  /\ pdfData (app wd') = Some buffer
  /\ totalPages (app wd') = PdfJs.numPages doc
  /\ currentPage (app wd') = 1
  /\ location (app wd') = locationSelect form
  /\ showNextPreview (app wd') = nextPreviewCheckbox form
  /\ ~ (split (app wd') == 0)%Q
  /\ ~ (scale (app wd') == 0)%Q
  /\ cachedSince (canvasesCreated wd) wd'.
Proof.
  intros Hlib Hname Hbytes Hdoc wd'. subst wd'.
  unfold handleFileSelect. rewrite Hname. cbn [negb].
  unfold tryCatch. rewrite Hbytes.
  unfold bind, loadPdfFromBuffer. rewrite Hlib, Hdoc. cbn [snd].
  match goal with
  | |- context [renderCurrentPage ?w] => set (wd1 := w)
  end.
  destruct (PagingFacts.frame_app _ _
              (NavigationFacts.renderCurrentPage_frame wd1))
    as (H1 & H2 & H3 & H4 & H5 & H6 & H7 & H8).
  rewrite H1, H2, H3, H4, H5, H6, H7, H8.
  assert (Hnz : forall v d, ~ (d == 0)%Q -> ~ (parsedOr v d == 0)%Q).
  { intros v d Hd. unfold parsedOr. destruct v as [q|]; [|exact Hd].
    destruct (Qeq_bool q 0) eqn:E; [exact Hd|].
    intros Hq. apply Qeq_bool_iff in Hq. congruence. }
  repeat split.
  - apply Hnz. discriminate.
  - apply Hnz. discriminate.
  - apply cachedSince_renderCurrentPage. subst wd1.
    split; [cbn; lia | constructor].
  - apply cachedSince_renderCurrentPage. subst wd1.
    split; [cbn; lia | constructor].
Qed.

Lemma file_load_replaces_document_witness :
  let wd' :=
    handleFileSelect (Some (mkFile "Lecture.PDF" (Return Scenario.goodBytes)))
      (mkStartForm "bottom" (Some 0%Q) None false)
      (fst (navigateTo Scenario.session 4 Scenario.presentingWorld)) in
  totalPages (app wd') = 10 /\ currentPage (app wd') = 1
  /\ location (app wd') = "bottom".
Proof.
  intros wd'.
  destruct (file_load_replaces_document Scenario.sampleLibrary
              (mkFile "Lecture.PDF" (Return Scenario.goodBytes))
              Scenario.goodBytes Scenario.sampleDoc
              (mkStartForm "bottom" (Some 0%Q) None false)
              (fst (navigateTo Scenario.session 4 Scenario.presentingWorld)))
    as (_ & _ & Ht & Hc & Hl & _);
    try (vm_compute; reflexivity).
  split; [exact Ht | split; [exact Hc | exact Hl]].
Defined.

End StartupFacts.
